(** * SkillDialog: forwarding a conversation to a remote skill

    A shallow embedding of
    [libraries/botbuilder-dialogs/botbuilder/dialogs/skills/skill_dialog.py]
    and the properties of its forwarding state machine, its skill invocation
    protocol and its OAuth card interception.

    The dialog talks to its collaborators (conversation id factory,
    conversation state, skill client, token provider, hosting turn context,
    dialog context) through calls that may raise.  Each such call is an event
    of the family [skillE]; a run threads a log of the calls made so far,
    with their outcomes, and the collaborators are one oracle that answers a
    call from the log it has seen. *)

From Stdlib Require Import ZArith QArith List String Ascii Lia DecimalString.
From stdpp Require Import base option list gmap strings.

Close Scope Q_scope.
Local Open Scope string_scope.
Local Open Scope Z_scope.

Set Default Proof Using "Type".

(** ** Python values and exceptions *)

Record TokenExchangeInvokeRequest := {
  request_id : option string;
  request_token : option string;
  request_connection_name : option string
}.

(** The payloads the dialog stores or forwards without looking inside. *)
Inductive PyVal :=
| VNone
| VStr (s : string)
| VInt (z : Z)
| VDict (items : list (string * string))
| VTokenExchangeInvokeRequest (r : TokenExchangeInvokeRequest).

Inductive exn :=
| TypeError (msg : string)
| RuntimeError (msg : string)
| AttributeError (msg : string)
| KeyError (key : string)
| Exception (msg : string)
| CollaboratorError (msg : string).

Inductive Res (A : Type) :=
| Ok (a : A)
| Raise (e : exn).
Arguments Ok {A} a.
Arguments Raise {A} e.

(** [not s] of Python on a string or [None]. *)
Definition truthy_str (s : option string) : bool :=
  match s with
  | Some (String _ _) => true
  | _ => false
  end.

(** [str(s)] as an f-string prints a string or [None]. *)
Definition py_str (s : option string) : string :=
  match s with
  | Some v => v
  | None => "None"
  end.

Definition opt_str_eqb (s : option string) (c : string) : bool :=
  match s with
  | Some v => String.eqb v c
  | None => false
  end.

(** ** The schema: activities, cards, accounts *)

Module ActivityTypes.
Definition message : string := "message".
Definition event : string := "event".
Definition invoke : string := "invoke".
Definition end_of_conversation : string := "endOfConversation".
End ActivityTypes.

Module DeliveryModes.
Definition normal : string := "normal".
Definition expect_replies : string := "expectReplies".
End DeliveryModes.

Module ContentTypes.
Definition oauth_card : string := "application/vnd.microsoft.card.oauth".
End ContentTypes.

Module SignInConstants.
Definition token_exchange_operation_name : string := "signin/tokenExchange".
End SignInConstants.

Module DialogEvents.
Definition reprompt_dialog : string := "repromptDialog".
End DialogEvents.

Record ChannelAccount := {
  account_id : string;
  account_name : option string
}.

Record ConversationAccount := {
  conversation_id : string;
  conversation_name : option string;
  is_group : option bool
}.

Record TokenExchangeResource := {
  resource_id : option string;
  resource_uri : option string
}.

Record OAuthCard := {
  card_connection_name : option string;
  token_exchange_resource : option TokenExchangeResource
}.

Record Attachment := {
  content_type : option string;
  content : option OAuthCard
}.

Record Activity := {
  activity_type : option string;
  activity_id : option string;
  activity_name : option string;
  activity_value : PyVal;
  delivery_mode : option string;
  channel_id : option string;
  locale : option string;
  service_url : option string;
  conversation : option ConversationAccount;
  from_property : option ChannelAccount;
  recipient : option ChannelAccount;
  reply_to_id : option string;
  channel_data : PyVal;
  additional_properties : PyVal;
  attachments : option (list Attachment)
}.

(** [Activity(type=t, name=n)]: every other field is [None]; msrest gives a
    model an empty [additional_properties] dict. *)
Definition new_activity (t : string) (n : option string) : Activity :=
  {| activity_type := Some t; activity_id := None; activity_name := n;
     activity_value := VNone; delivery_mode := None; channel_id := None;
     locale := None; service_url := None; conversation := None;
     from_property := None; recipient := None; reply_to_id := None;
     channel_data := VNone; additional_properties := VDict [];
     attachments := None |}.

Definition set_delivery_mode (v : option string) (a : Activity) : Activity :=
  {| activity_type := activity_type a; activity_id := activity_id a;
     activity_name := activity_name a; activity_value := activity_value a;
     delivery_mode := v; channel_id := channel_id a; locale := locale a;
     service_url := service_url a; conversation := conversation a;
     from_property := from_property a; recipient := recipient a;
     reply_to_id := reply_to_id a; channel_data := channel_data a;
     additional_properties := additional_properties a;
     attachments := attachments a |}.

(** The three assignments [activity.type = ...; activity.name = ...;
    activity.value = ...] of the token exchange invoke. *)
Definition set_type_name_value (t n : string) (v : PyVal) (a : Activity)
  : Activity :=
  {| activity_type := Some t; activity_id := activity_id a;
     activity_name := Some n; activity_value := v;
     delivery_mode := delivery_mode a; channel_id := channel_id a;
     locale := locale a; service_url := service_url a;
     conversation := conversation a; from_property := from_property a;
     recipient := recipient a; reply_to_id := reply_to_id a;
     channel_data := channel_data a;
     additional_properties := additional_properties a;
     attachments := attachments a |}.

(** [activity.channel_data = cd; activity.additional_properties = ap]. *)
Definition set_channel_metadata (cd ap : PyVal) (a : Activity) : Activity :=
  {| activity_type := activity_type a; activity_id := activity_id a;
     activity_name := activity_name a; activity_value := activity_value a;
     delivery_mode := delivery_mode a; channel_id := channel_id a;
     locale := locale a; service_url := service_url a;
     conversation := conversation a; from_property := from_property a;
     recipient := recipient a; reply_to_id := reply_to_id a;
     channel_data := cd; additional_properties := ap;
     attachments := attachments a |}.

Record ConversationReference := {
  ref_activity_id : option string;
  ref_user : option ChannelAccount;
  ref_bot : option ChannelAccount;
  ref_conversation : option ConversationAccount;
  ref_channel_id : option string;
  ref_locale : option string;
  ref_service_url : option string
}.

(** Modelled from the spec: [TurnContext.get_conversation_reference] is not
    part of the source file.  It reads the correlation reference of the root
    conversation off the turn's inbound activity. *)
Definition get_conversation_reference (a : Activity) : ConversationReference :=
  {| ref_activity_id := activity_id a; ref_user := from_property a;
     ref_bot := recipient a; ref_conversation := conversation a;
     ref_channel_id := channel_id a; ref_locale := locale a;
     ref_service_url := service_url a |}.

(** Modelled from the spec: [TurnContext.apply_conversation_reference] is not
    part of the source file.  It stamps an activity with a correlation
    reference; with [is_incoming] the activity comes from the user and goes to
    the bot, and takes the reference's activity id when there is one.  Type,
    name, value, delivery mode and channel metadata are left as they are. *)
Definition apply_conversation_reference (a : Activity)
    (r : ConversationReference) (is_incoming : bool) : Activity :=
  {| activity_type := activity_type a;
     activity_id :=
       (if is_incoming
        then (if truthy_str (ref_activity_id r) then ref_activity_id r
              else activity_id a)
        else activity_id a);
     activity_name := activity_name a; activity_value := activity_value a;
     delivery_mode := delivery_mode a;
     channel_id := ref_channel_id r; locale := ref_locale r;
     service_url := ref_service_url r; conversation := ref_conversation r;
     from_property := (if is_incoming then ref_user r else ref_bot r);
     recipient := (if is_incoming then ref_bot r else ref_user r);
     reply_to_id :=
       (if is_incoming then reply_to_id a
        else (if truthy_str (ref_activity_id r) then ref_activity_id r
              else reply_to_id a));
     channel_data := channel_data a;
     additional_properties := additional_properties a;
     attachments := attachments a |}.

(** ** Configuration and collaborators' data *)

Record BotFrameworkSkill := {
  skill_id : string;
  app_id : string;
  skill_endpoint : string
}.

Record SkillDialogOptions := {
  bot_id : string;
  skill_host_endpoint : string;
  skill : BotFrameworkSkill
}.

Record SkillConversationIdFactoryOptions := {
  from_bot_oauth_scope : option string;
  from_bot_id : string;
  factory_activity : Activity;
  bot_framework_skill : BotFrameworkSkill
}.

(** A response body: what [str] prints of it, whether it is truthy, and what
    [ExpectedReplies().deserialize(body).activities] gives when iterated. *)
Record ResponseBody := {
  body_repr : string;
  body_truthy : bool;
  body_activities : Res (list Activity)
}.

Record InvokeResponse := {
  status : Z;
  body : option ResponseBody
}.

Record TokenResponse := {
  token : option string
}.

Record BeginSkillDialogOptions := {
  options_activity : option Activity;
  options_connection_name : option string
}.

(** The [options] object handed to [begin_dialog]: its truth value and what
    [BeginSkillDialogOptions.from_object] reads from it. *)
Record PyObject := {
  object_truthy : bool;
  from_object : option BeginSkillDialogOptions
}.

Record TurnContext := {
  context_activity : Activity;
  adapter_is_extended_user_token_provider : bool;
  turn_state_bot_oauth_scope : option string
}.

Inductive DialogReason :=
| BeginCalled
| ContinueCalled
| EndCalled
| ReplaceCalled
| CancelCalled
| NextCalled.

Inductive DialogTurnStatus :=
| Empty
| Waiting
| Complete
| Cancelled.

Record DialogTurnResult := {
  turn_status : DialogTurnStatus;
  turn_result : PyVal
}.

Definition end_of_turn : DialogTurnResult :=
  {| turn_status := Waiting; turn_result := VNone |}.

(** ** Calls to the collaborators *)

Inductive skillE : Type -> Type :=
| SendTraceActivity (name label : string) : skillE unit
| SendActivity (a : Activity) : skillE unit
| CreateSkillConversationId (o : SkillConversationIdFactoryOptions)
  : skillE string
| SaveChanges (force : bool) : skillE unit
| PostActivity (from_bot_id to_bot_id to_url service_url conversation_id : string)
    (a : Activity) : skillE InvokeResponse
| ExchangeToken (connection_name : option string) (user_id : string)
    (uri : option string) : skillE (option TokenResponse)
| DialogContextEndDialog (result : PyVal) : skillE DialogTurnResult
| BaseEndDialog (reason : DialogReason) : skillE unit.

(** A call together with how it came back. *)
Inductive event :=
| Ev {X : Type} (c : skillE X) (r : Res X).

Definition Env := forall X : Type, list event -> skillE X -> Res X.

(** The log of the turn and the state dict of the active dialog frame. *)
Record World := {
  log : list event;
  frame : gmap string (option string)
}.

Definition M (A : Type) : Type := World -> Res A * World.

Definition ret {A} (a : A) : M A := fun w => (Ok a, w).

Definition raise {A} (e : exn) : M A := fun w => (Raise e, w).

Definition bind {A B} (c : M A) (k : A -> M B) : M B :=
  fun w =>
    match c w with
    | (Ok a, w') => k a w'
    | (Raise e, w') => (Raise e, w')
    end.

Definition lift {A} (r : Res A) : M A := fun w => (r, w).

(** [try: c / except: h] with a bare [except]. *)
Definition try_except {A} (c : M A) (h : M A) : M A :=
  fun w =>
    match c w with
    | (Ok a, w') => (Ok a, w')
    | (Raise _, w') => h w'
    end.

Notation "'do' x <- c ; k" := (bind c (fun x => k))
  (at level 10, x name, c at level 100, k at level 200,
   format "'[v' 'do'  x  <-  c ; '/' k ']'").
Notation "'run' c ; k" := (bind c (fun _ => k))
  (at level 10, c at level 100, k at level 200,
   format "'[v' 'run'  c ; '/' k ']'").

(** [o.attr] on an object that may be [None]. *)
Definition attr {A} (o : option A) (what : string) : Res A :=
  match o with
  | Some v => Ok v
  | None =>
      Raise (AttributeError ("'NoneType' object has no attribute " ++ what))
  end.

(** [for x in o]: iterating [None] is a [TypeError]. *)
Definition iter {A} (o : option (list A)) : Res (list A) :=
  match o with
  | Some l => Ok l
  | None => Raise (TypeError "'NoneType' object is not iterable")
  end.

(** [next(g)] with no default, inside a coroutine: the [StopIteration] of an
    exhausted generator surfaces as a [RuntimeError]. *)
Definition next {A} (g : list A) : Res A :=
  match g with
  | x :: _ => Ok x
  | [] => Raise (RuntimeError "coroutine raised StopIteration")
  end.

(** [str(n)] of an int. *)
Definition str_int (n : Z) : string := NilZero.string_of_int (Z.to_int n).

Definition dquote : string := String (ascii_of_nat 34) EmptyString.
Definition crlf : string :=
  String (ascii_of_nat 13) (String (ascii_of_nat 10) EmptyString).

(** [str(response.body)]. *)
Definition str_body (b : option ResponseBody) : string :=
  match b with
  | Some v => body_repr v
  | None => "None"
  end.

Definition body_is_truthy (b : option ResponseBody) : bool :=
  match b with
  | Some v => body_truthy v
  | None => false
  end.

Definition _deliver_mode_state_key : string := "deliverymode".
Definition _sso_connection_name_key : string := "SkillDialog.SSOConnectionName".

(** [state[k] = v] and [state[k]] on the active frame's dict. *)
Definition set_state (k : string) (v : option string) : M unit :=
  fun w => (Ok tt, {| log := log w; frame := <[k:=v]> (frame w) |}).

Definition get_state (k : string) : M (option string) :=
  fun w =>
    match frame w !! k with
    | Some v => (Ok v, w)
    | None => (Raise (KeyError k), w)
    end.

Definition _validate_begin_dialog_args (options : option PyObject)
  : Res BeginSkillDialogOptions :=
  match options with
  | None => Raise (TypeError "options cannot be None.")
  | Some o =>
      if negb (object_truthy o)
      then Raise (TypeError "options cannot be None.")
      else
        match from_object o with
        | None =>
            Raise (TypeError
              "SkillDialog: options object not valid as BeginSkillDialogOptions.")
        | Some dialog_args =>
            match options_activity dialog_args with
            | None =>
                Raise (TypeError
                  "SkillDialog: activity object in options as BeginSkillDialogOptions cannot be None.")
            | Some _ => Ok dialog_args
            end
        end
  end.

(** [response.status / 100 == 2]: [/] is the true division of Python 3, so
    the quotient is compared as a fraction, not as a floor. *)
Definition status_div_100_is_2 (s : Z) : bool :=
  Qeq_bool (inject_Z s / inject_Z 100) (inject_Z 2).

(** [not 200 <= response.status <= 299]. *)
Definition status_outside_2xx (s : Z) : bool :=
  negb ((200 <=? s) && (s <=? 299)).

Definition invoke_error_message (skill_info : BotFrameworkSkill)
    (response : InvokeResponse) : string :=
  "Error invoking the skill id: " ++ dquote ++ skill_id skill_info ++ dquote
  ++ " at " ++ dquote ++ skill_endpoint skill_info ++ dquote
  ++ " (status is " ++ str_int (status response) ++ "). " ++ crlf ++ " "
  ++ str_body (body response).

(** ** Fixtures: a root bot, a skill and scripted collaborators *)

Module Fixtures.

Definition options : SkillDialogOptions :=
  {| bot_id := "root-bot";
     skill_host_endpoint := "http://root/api/skills";
     skill := {| skill_id := "echo"; app_id := "echo-app";
                 skill_endpoint := "http://skill/api/messages" |} |}.

Definition user : ChannelAccount :=
  {| account_id := "user-1"; account_name := None |}.

Definition bot : ChannelAccount :=
  {| account_id := "root-bot"; account_name := None |}.

Definition root_conversation : ConversationAccount :=
  {| conversation_id := "root-conversation"; conversation_name := None;
     is_group := None |}.

Definition activity_of (t : string) (v : PyVal)
    (atts : option (list Attachment)) : Activity :=
  {| activity_type := Some t; activity_id := Some "a1";
     activity_name := None; activity_value := v;
     delivery_mode := None; channel_id := Some "test";
     locale := None; service_url := Some "http://channel";
     conversation := Some root_conversation;
     from_property := Some user; recipient := Some bot;
     reply_to_id := None; channel_data := VStr "channel-data";
     additional_properties := VDict [("k", "v")];
     attachments := atts |}.

Definition hello : Activity :=
  activity_of ActivityTypes.message VNone None.

Definition plain_reply : Activity :=
  activity_of ActivityTypes.message (VStr "hi") (Some []).

Definition eoc_reply (v : string) : Activity :=
  activity_of ActivityTypes.end_of_conversation (VStr v) (Some []).

Definition card : OAuthCard :=
  {| card_connection_name := Some "card-connection";
     token_exchange_resource :=
       Some {| resource_id := Some "resource-1";
               resource_uri := Some "api://resource" |} |}.

Definition card_reply : Activity :=
  activity_of ActivityTypes.message VNone
    (Some [ {| content_type := Some ContentTypes.oauth_card;
               content := Some card |} ]).

Definition context_of (a : Activity) (extended : bool) : TurnContext :=
  {| context_activity := a;
     adapter_is_extended_user_token_provider := extended;
     turn_state_bot_oauth_scope := None |}.

(** A reply as [create_reply] of the schema builds it: a message from the
    recipient back to the sender, in the same conversation. *)
Definition create_reply (a : Activity) : Res Activity :=
  match conversation a with
  | None => Raise (AttributeError "'NoneType' object has no attribute 'is_group'")
  | Some c =>
      Ok {| activity_type := Some ActivityTypes.message;
            activity_id := None; activity_name := None;
            activity_value := VNone; delivery_mode := None;
            channel_id := channel_id a; locale := locale a;
            service_url := service_url a; conversation := Some c;
            from_property := recipient a; recipient := from_property a;
            reply_to_id := activity_id a; channel_data := VNone;
            additional_properties := VDict []; attachments := Some [] |}
  end.

Definition replies_body (l : list Activity) : option ResponseBody :=
  Some {| body_repr := "{...}"; body_truthy := true;
          body_activities := Ok l |}.

Definition is_invoke (a : Activity) : bool :=
  opt_str_eqb (activity_type a) ActivityTypes.invoke.

(** Collaborators that accept everything: the skill answers a forwarded
    activity with [first] and a token exchange invoke with status
    [follow_up]; the token provider answers [exchange]. *)
Definition collaborators (first : InvokeResponse) (follow_up : Z)
    (exchange : Res (option TokenResponse)) : Env :=
  fun X _ c =>
    match c in skillE X return Res X with
    | SendTraceActivity _ _ => Ok tt
    | SendActivity _ => Ok tt
    | CreateSkillConversationId _ => Ok "skill-conversation"
    | SaveChanges _ => Ok tt
    | PostActivity _ _ _ _ _ a =>
        if is_invoke a
        then Ok {| status := follow_up; body := None |}
        else Ok first
    | ExchangeToken _ _ _ => exchange
    | DialogContextEndDialog v =>
        Ok {| turn_status := Complete; turn_result := v |}
    | BaseEndDialog _ => Ok tt
    end.

Definition ok_empty : InvokeResponse := {| status := 200; body := None |}.

Definition token_ok : Res (option TokenResponse) :=
  Ok (Some {| token := Some "exchanged-token" |}).

Definition start : World := {| log := []; frame := ∅ |}.

Definition begin_options (a : Activity) (dm cn : option string)
  : option PyObject :=
  Some {| object_truthy := true;
          from_object :=
            Some {| options_activity := Some (set_delivery_mode dm a);
                    options_connection_name := cn |} |}.

End Fixtures.


(** ** Scenarios: collaborators that refuse some calls *)

Module Scenarios.

(** [base], except that the calls picked by [refuse] raise. *)
Definition refusing (refuse : forall X, skillE X -> bool) (base : Env) : Env :=
  fun X h c =>
    if refuse X c then Raise (CollaboratorError "refused") else base X h c.

Definition the_id_factory (X : Type) (c : skillE X) : bool :=
  match c with
  | CreateSkillConversationId _ => true
  | _ => false
  end.

Definition the_save (X : Type) (c : skillE X) : bool :=
  match c with
  | SaveChanges _ => true
  | _ => false
  end.


Definition the_token_provider (X : Type) (c : skillE X) : bool :=
  match c with
  | ExchangeToken _ _ _ => true
  | _ => false
  end.

(** A card with no token exchange resource. *)
Definition bare_card_reply : Activity :=
  Fixtures.activity_of ActivityTypes.message VNone
    (Some [ {| content_type := Some ContentTypes.oauth_card;
               content := Some {| card_connection_name := Some "card-connection";
                                  token_exchange_resource := None |} |} ]).

End Scenarios.

(** ** The dialog *)

Section SkillDialog.

(** The collaborators, [Activity.create_reply] of the schema, and
    [self.dialog_options]. *)
Variable env : Env.
Variable create_reply : Activity -> Res Activity.
Variable dialog_options : SkillDialogOptions.

(** A call to a collaborator: the oracle answers from the log so far, and the
    call and its outcome are appended to the log. *)
Definition call {X} (c : skillE X) : M X :=
  fun w =>
    let r := env X (log w) c in
    (r, {| log := log w ++ [Ev c r]; frame := frame w |}).

(** [_send_token_exchange_invoke_to_skill]: the arguments of [post_activity]
    are evaluated before the call, so a missing [conversation] raises before
    anything is posted. *)
Definition _send_token_exchange_invoke_to_skill
    (incoming_activity : Activity) (request_id connection_name : option string)
    (token : option string) : M bool :=
  do reply <- lift (create_reply incoming_activity);
  let activity :=
    set_type_name_value ActivityTypes.invoke
      SignInConstants.token_exchange_operation_name
      (VTokenExchangeInvokeRequest
         {| request_id := request_id; request_token := token;
            request_connection_name := connection_name |})
      reply in
  let skill_info := skill dialog_options in
  do incoming_conversation <-
    lift (attr (conversation incoming_activity) "'id'");
  do response <-
    call (PostActivity (bot_id dialog_options) (app_id skill_info)
            (skill_endpoint skill_info) (skill_host_endpoint dialog_options)
            (conversation_id incoming_conversation) activity);
  ret (status_div_100_is_2 (status response)).

Definition is_oauth_card (attachment : Attachment) : bool :=
  opt_str_eqb (content_type attachment) ContentTypes.oauth_card.

(** [_intercept_oauth_cards].  An attachment that [next] found is an object,
    hence truthy: [if oauth_card_attachment] always passes.  The [try] block
    covers the exchange and the follow-up invoke; its bare [except] gives
    [False]. *)
Definition _intercept_oauth_cards (context : TurnContext)
    (activity : Activity) (connection_name : option string) : M bool :=
  if negb (truthy_str connection_name)
     || negb (adapter_is_extended_user_token_provider context)
  then ret false
  else
    do all_attachments <- lift (iter (attachments activity));
    do oauth_card_attachment <-
      lift (next (List.filter is_oauth_card all_attachments));
    match content oauth_card_attachment with
    | None => ret false
    | Some oauth_card =>
        match token_exchange_resource oauth_card with
        | None => ret false
        | Some resource =>
            if truthy_str (resource_uri resource)
            then
              try_except
                (do user <-
                   lift (attr (from_property (context_activity context))
                           "'id'");
                 do result <-
                   call (ExchangeToken connection_name (account_id user)
                           (resource_uri resource));
                 match result with
                 | None => ret false
                 | Some token_response =>
                     if truthy_str (token token_response)
                     then
                       _send_token_exchange_invoke_to_skill activity
                         (resource_id resource)
                         (card_connection_name oauth_card)
                         (token token_response)
                     else ret false
                 end)
                (ret false)
            else ret false
        end
    end.

(** The [for from_skill_activity in response.body] loop, with the captured
    end-of-conversation activity so far. *)
Fixpoint process_replies (context : TurnContext)
    (connection_name : option string) (replies : list Activity)
    (eoc_activity : option Activity) : M (option Activity) :=
  match replies with
  | [] => ret eoc_activity
  | from_skill_activity :: rest =>
      if opt_str_eqb (activity_type from_skill_activity)
           ActivityTypes.end_of_conversation
      then process_replies context connection_name rest
             (Some from_skill_activity)
      else
        do intercepted <-
          _intercept_oauth_cards context from_skill_activity connection_name;
        if intercepted
        then process_replies context connection_name rest eoc_activity
        else
          run call (SendActivity from_skill_activity);
          process_replies context connection_name rest eoc_activity
  end.

(** [_send_to_skill]: ask for a skill conversation id, save the state, post
    the activity, check the status, then go through the expected replies. *)
Definition _send_to_skill (context : TurnContext) (activity : Activity)
    (connection_name : option string) : M (option Activity) :=
  let conversation_id_factory_options :=
    {| from_bot_oauth_scope := turn_state_bot_oauth_scope context;
       from_bot_id := bot_id dialog_options;
       factory_activity := activity;
       bot_framework_skill := skill dialog_options |} in
  do skill_conversation_id <-
    call (CreateSkillConversationId conversation_id_factory_options);
  let skill_info := skill dialog_options in
  run call (SaveChanges true);
  do response <-
    call (PostActivity (bot_id dialog_options) (app_id skill_info)
            (skill_endpoint skill_info) (skill_host_endpoint dialog_options)
            skill_conversation_id activity);
  if status_outside_2xx (status response)
  then raise (Exception (invoke_error_message skill_info response))
  else
    if opt_str_eqb (delivery_mode activity) DeliveryModes.expect_replies
       && body_is_truthy (body response)
    then
      do replies <-
        lift (match body response with
              | Some b => body_activities b
              | None => iter None
              end);
      process_replies context connection_name replies None
    else ret None.

(** [begin_dialog]; [context] is [dialog_context.context], the frame of the
    world is [dialog_context.active_dialog.state], and [deepcopy] is the
    identity on values. *)
Definition begin_dialog (context : TurnContext) (options : option PyObject)
  : M DialogTurnResult :=
  do dialog_args <- lift (_validate_begin_dialog_args options);
  do args_activity <- lift (attr (options_activity dialog_args) "'type'");
  run call (SendTraceActivity "SkillDialog.BeginDialogAsync()"
             ("Using activity of type: " ++ py_str (activity_type args_activity)));
  let skill_activity :=
    apply_conversation_reference args_activity
      (get_conversation_reference (context_activity context)) true in
  run set_state _deliver_mode_state_key (delivery_mode args_activity);
  run set_state _sso_connection_name_key
        (options_connection_name dialog_args);
  do eoc_activity <-
    _send_to_skill context skill_activity
      (options_connection_name dialog_args);
  match eoc_activity with
  | Some eoc => call (DialogContextEndDialog (activity_value eoc))
  | None => ret end_of_turn
  end.

Definition continue_dialog (context : TurnContext) : M DialogTurnResult :=
  run call (SendTraceActivity "SkillDialog.continue_dialog()"
             ("ActivityType: "
              ++ py_str (activity_type (context_activity context))));
  if opt_str_eqb (activity_type (context_activity context))
       ActivityTypes.end_of_conversation
  then
    run call (SendTraceActivity "SkillDialog.continue_dialog()"
               ("Got " ++ ActivityTypes.end_of_conversation));
    call (DialogContextEndDialog (activity_value (context_activity context)))
  else
    do stored_delivery_mode <- get_state _deliver_mode_state_key;
    let skill_activity :=
      set_delivery_mode stored_delivery_mode (context_activity context) in
    do connection_name <- get_state _sso_connection_name_key;
    do eoc_activity <- _send_to_skill context skill_activity connection_name;
    match eoc_activity with
    | Some eoc => call (DialogContextEndDialog (activity_value eoc))
    | None => ret end_of_turn
    end.

Definition reprompt_dialog (context : TurnContext) : M unit :=
  let reprompt_event :=
    apply_conversation_reference
      (new_activity ActivityTypes.event (Some DialogEvents.reprompt_dialog))
      (get_conversation_reference (context_activity context)) true in
  run _send_to_skill context reprompt_event None;
  ret tt.

Definition resume_dialog (context : TurnContext) : M DialogTurnResult :=
  run reprompt_dialog context;
  ret end_of_turn.

(** [end_dialog]; the base class teardown is the last call. *)
Definition end_dialog (context : TurnContext) (reason : DialogReason)
  : M unit :=
  run (match reason with
       | CancelCalled | ReplaceCalled =>
           run call (SendTraceActivity "SkillDialog.end_dialog()"
                      ("ActivityType: "
                       ++ py_str (activity_type (context_activity context))));
           let activity :=
             set_channel_metadata
               (channel_data (context_activity context))
               (additional_properties (context_activity context))
               (apply_conversation_reference
                  (new_activity ActivityTypes.end_of_conversation None)
                  (get_conversation_reference (context_activity context))
                  true) in
           run _send_to_skill context activity None;
           ret tt
       | _ => ret tt
       end);
  call (BaseEndDialog reason).


(** Any number of [continue_dialog] turns, whatever each of them gives. *)
Fixpoint continue_turns (contexts : list TurnContext) (w : World) : World :=
  match contexts with
  | [] => w
  | context :: rest => continue_turns rest (continue_dialog context w).2
  end.

(** ** Reading the log *)

(** The activities posted to the skill through the skill client. *)
Definition posted (l : list event) : list Activity :=
  flat_map (fun e =>
              match e with
              | Ev c _ =>
                  match c with
                  | PostActivity _ _ _ _ _ a => [a]
                  | _ => []
                  end
              end) l.

(** The activities surfaced to the user through the hosting context. *)
Definition surfaced (l : list event) : list Activity :=
  flat_map (fun e =>
              match e with
              | Ev c _ =>
                  match c with
                  | SendActivity a => [a]
                  | _ => []
                  end
              end) l.

(** The outbound activities for which a skill conversation id was asked:
    one for each run of [_send_to_skill]. *)
Definition handed_to_skill (l : list event) : list Activity :=
  flat_map (fun e =>
              match e with
              | Ev c _ =>
                  match c with
                  | CreateSkillConversationId o => [factory_activity o]
                  | _ => []
                  end
              end) l.

Definition is_post_activity (e : event) : bool :=
  match e with
  | Ev c _ =>
      match c with
      | PostActivity _ _ _ _ _ _ => true
      | _ => false
      end
  end.

Definition is_create_skill_conversation_id (e : event) : bool :=
  match e with
  | Ev c _ =>
      match c with
      | CreateSkillConversationId _ => true
      | _ => false
      end
  end.

Definition is_save_changes (e : event) : bool :=
  match e with
  | Ev c _ =>
      match c with
      | SaveChanges _ => true
      | _ => false
      end
  end.

Definition is_exchange_token (e : event) : bool :=
  match e with
  | Ev c _ =>
      match c with
      | ExchangeToken _ _ _ => true
      | _ => false
      end
  end.

(** Whether the call of an event came back without raising. *)
Definition returned (e : event) : bool :=
  match e with
  | Ev _ (Ok _) => true
  | Ev _ (Raise _) => false
  end.

Definition is_end_of_conversation (a : Activity) : bool :=
  opt_str_eqb (activity_type a) ActivityTypes.end_of_conversation.

(** The last end-of-conversation activity of a batch, or [so_far] when the
    batch has none. *)
Fixpoint last_end_of_conversation (replies : list Activity)
    (so_far : option Activity) : option Activity :=
  match replies with
  | [] => so_far
  | a :: rest =>
      last_end_of_conversation rest
        (if is_end_of_conversation a then Some a else so_far)
  end.

Definition not_end_of_conversation (a : Activity) : bool :=
  negb (is_end_of_conversation a).

(** The hosting context takes every activity surfaced to the user. *)
Definition accepts_activities : Prop :=
  forall h a, env unit h (SendActivity a) = Ok tt.

(** [x] occurs in the text [msg]. *)
Definition mentions (msg x : string) : Prop :=
  exists before after, msg = before ++ x ++ after.

(** The hosting context takes every trace activity. *)
Definition accepts_traces : Prop :=
  forall h name label, env unit h (SendTraceActivity name label) = Ok tt.

(** A computation that only appends events satisfying [P] to the log and
    leaves the frame's state alone. *)
Definition emits (P : event -> Prop) {A} (c : M A) : Prop :=
  forall w, exists d,
    (c w).2 = {| log := log w ++ d; frame := frame w |} /\ Forall P d.

Definition is_send_activity (e : event) : bool :=
  match e with
  | Ev c _ =>
      match c with
      | SendActivity _ => true
      | _ => false
      end
  end.

(** The calls an interception can make, and the calls the processing of a
    batch of replies can make. *)
Definition interception_event (e : event) : Prop :=
  is_post_activity e || is_exchange_token e = true.

Definition reply_event (e : event) : Prop :=
  is_post_activity e || is_exchange_token e || is_send_activity e = true.

Definition any_event (e : event) : Prop := True.

Definition is_base_end_dialog (e : event) : bool :=
  match e with
  | Ev c _ =>
      match c with
      | BaseEndDialog _ => true
      | _ => false
      end
  end.

(** Collaborators that take every trace activity, id request and save, and
    a skill that answers every post with a status from 200 to 299. *)
Definition cooperative : Prop :=
  accepts_traces
  /\ (forall h o, exists cid, env string h (CreateSkillConversationId o) = Ok cid)
  /\ (forall h force, env unit h (SaveChanges force) = Ok tt)
  /\ (forall h b1 b2 u1 u2 cid a,
        exists response,
          env InvokeResponse h (PostActivity b1 b2 u1 u2 cid a) = Ok response
          /\ 200 <= status response <= 299).

(** The end-of-conversation activity that [end_dialog] builds on a
    cancellation. *)
Definition cancellation_activity (context : TurnContext) : Activity :=
  set_channel_metadata
    (channel_data (context_activity context))
    (additional_properties (context_activity context))
    (apply_conversation_reference
       (new_activity ActivityTypes.end_of_conversation None)
       (get_conversation_reference (context_activity context)) true).


(** The event activity that [reprompt_dialog] builds. *)
Definition reprompt_activity (context : TurnContext) : Activity :=
  apply_conversation_reference
    (new_activity ActivityTypes.event (Some DialogEvents.reprompt_dialog))
    (get_conversation_reference (context_activity context)) true.

(** The options handed to the id factory for an outbound activity. *)
Definition factory_options (context : TurnContext) (activity : Activity)
  : SkillConversationIdFactoryOptions :=
  {| from_bot_oauth_scope := turn_state_bot_oauth_scope context;
     from_bot_id := bot_id dialog_options;
     factory_activity := activity;
     bot_framework_skill := skill dialog_options |}.

(** The post of an outbound activity under a skill conversation id. *)
Definition skill_post (cid : string) (activity : Activity)
  : skillE InvokeResponse :=
  PostActivity (bot_id dialog_options) (app_id (skill dialog_options))
    (skill_endpoint (skill dialog_options))
    (skill_host_endpoint dialog_options) cid activity.

(** An event that surfaces no end-of-conversation activity. *)
Definition keeps_end_of_conversation (e : event) : Prop :=
  match e with
  | Ev c _ =>
      match c with
      | SendActivity a => is_end_of_conversation a = false
      | _ => True
      end
  end.

(** An event that asks the token provider under no other connection name
    than [cn]. *)
Definition exchanges_under (cn : option string) (e : event) : Prop :=
  match e with
  | Ev c _ =>
      match c with
      | ExchangeToken name _ _ => name = cn
      | _ => True
      end
  end.


(** An answer of the token provider that gives no token to forward: it
    raised, gave [None], or gave a response whose token is missing or
    empty. *)
Definition no_usable_token (r : Res (option TokenResponse)) : bool :=
  match r with
  | Ok (Some token_response) => negb (truthy_str (token token_response))
  | _ => true
  end.

Definition is_dialog_context_end_dialog (e : event) : bool :=
  match e with
  | Ev c _ =>
      match c with
      | DialogContextEndDialog _ => true
      | _ => false
      end
  end.

(** The token exchange invoke built from a card's resource, a token and the
    reply to the incoming activity. *)
Definition token_exchange_invoke (oauth_card : OAuthCard)
    (resource : TokenExchangeResource) (token_response : TokenResponse)
    (reply : Activity) : Activity :=
  set_type_name_value ActivityTypes.invoke
    SignInConstants.token_exchange_operation_name
    (VTokenExchangeInvokeRequest
       {| request_id := resource_id resource;
          request_token := token token_response;
          request_connection_name := card_connection_name oauth_card |})
    reply.


(** The surfacing of a list of activities that the hosting context took. *)
Definition surfacing (l : list Activity) : list event :=
  map (fun a => Ev (SendActivity a) (Ok tt)) l.

(** The activity that [begin_dialog] forwards for the options' activity. *)
Definition begin_activity (context : TurnContext) (a : Activity) : Activity :=
  apply_conversation_reference a
    (get_conversation_reference (context_activity context)) true.

(** ** The monad *)

Lemma world_eta (w : World) : w = {| log := log w ++ []; frame := frame w |}.
Proof. destruct w; simpl; by rewrite app_nil_r. Qed.

Section Emits.
Context (P : event -> Prop).

Lemma emits_ret {A} (a : A) : emits P (ret a).
Proof. intros w; exists []; split; [apply world_eta | constructor]. Qed.

Lemma emits_raise {A} (e : exn) : emits P (@raise A e).
Proof. intros w; exists []; split; [apply world_eta | constructor]. Qed.

Lemma emits_lift {A} (r : Res A) : emits P (lift r).
Proof. intros w; exists []; split; [apply world_eta | constructor]. Qed.

Lemma emits_call {X} (c : skillE X) :
  (forall r, P (Ev c r)) -> emits P (call c).
Proof. intros Hc w; eexists; split; [reflexivity|]. by repeat constructor. Qed.

Lemma emits_get_state (k : string) : emits P (get_state k).
Proof.
  intros w; exists []; unfold get_state.
  destruct (frame w !! k); (split; [apply world_eta | constructor]).
Qed.

Lemma emits_bind {A B} (c : M A) (k : A -> M B) :
  emits P c -> (forall a, emits P (k a)) -> emits P (bind c k).
Proof.
  intros Hc Hk w; unfold bind.
  destruct (Hc w) as (d & Hd & HP); destruct (c w) as [[a|e] w'];
    simpl in Hd; subst w'.
  - destruct (Hk a {| log := log w ++ d; frame := frame w |})
      as (d' & Hd' & HP').
    exists (d ++ d')%list; rewrite Hd'; simpl; rewrite app_assoc.
    split; [reflexivity | by apply Forall_app].
  - by exists d.
Qed.

Lemma emits_try_except {A} (c h : M A) :
  emits P c -> emits P h -> emits P (try_except c h).
Proof.
  intros Hc Hh w; unfold try_except.
  destruct (Hc w) as (d & Hd & HP); destruct (c w) as [[a|e] w'];
    simpl in Hd; subst w'.
  - by exists d.
  - destruct (Hh {| log := log w ++ d; frame := frame w |})
      as (d' & Hd' & HP').
    exists (d ++ d')%list; rewrite Hd'; simpl; rewrite app_assoc.
    split; [reflexivity | by apply Forall_app].
Qed.

Lemma emits_if {A} (b : bool) (c1 c2 : M A) :
  emits P c1 -> emits P c2 -> emits P (if b then c1 else c2).
Proof. by destruct b. Qed.

End Emits.

Lemma emits_weaken (P Q : event -> Prop) {A} (c : M A) :
  (forall e, P e -> Q e) -> emits P c -> emits Q c.
Proof.
  intros HPQ Hc w. destruct (Hc w) as (d & Hd & HP).
  exists d. split; [exact Hd|]. eapply Forall_impl; eauto.
Qed.

Ltac emits_steps :=
  repeat (cbv zeta;
    match goal with
    | |- emits _ (ret _) => apply emits_ret
    | |- emits _ (raise _) => apply emits_raise
    | |- emits _ (lift _) => apply emits_lift
    | |- emits _ (call _) => apply emits_call; intros ?; reflexivity
    | |- emits _ (get_state _) => apply emits_get_state
    | |- emits _ (bind _ _) => apply emits_bind; [| intros ?]
    | |- emits _ (try_except _ _) => apply emits_try_except
    | |- emits _ (if _ then _ else _) => apply emits_if
    | |- emits _ (match ?x with _ => _ end) => destruct x
    end).

Lemma emits_send_token_exchange_invoke_to_skill incoming rid cn tok :
  emits interception_event
    (_send_token_exchange_invoke_to_skill incoming rid cn tok).
Proof. unfold _send_token_exchange_invoke_to_skill; emits_steps. Qed.

Lemma emits_intercept_oauth_cards context activity cn :
  emits interception_event (_intercept_oauth_cards context activity cn).
Proof.
  unfold _intercept_oauth_cards; emits_steps;
    apply emits_send_token_exchange_invoke_to_skill.
Qed.

Lemma interception_reply_event e : interception_event e -> reply_event e.
Proof.
  unfold interception_event, reply_event. intros ->. reflexivity.
Qed.

Lemma emits_process_replies context cn replies eoc :
  emits reply_event (process_replies context cn replies eoc).
Proof.
  revert eoc; induction replies as [|r rest IH]; intros eoc; simpl.
  - apply emits_ret.
  - destruct (opt_str_eqb _ _); [apply IH|].
    apply emits_bind.
    { eapply emits_weaken; [apply interception_reply_event|].
      apply emits_intercept_oauth_cards. }
    intros [|]; [apply IH|].
    apply emits_bind; [|intros _; apply IH].
    apply emits_call. intros ?. reflexivity.
Qed.

Lemma emits_send_to_skill context activity cn :
  emits any_event (_send_to_skill context activity cn).
Proof.
  unfold _send_to_skill; emits_steps.
  eapply emits_weaken; [|apply emits_process_replies]. done.
Qed.

Lemma emits_continue_dialog context :
  emits any_event (continue_dialog context).
Proof.
  unfold continue_dialog; emits_steps; apply emits_send_to_skill.
Qed.

Lemma emits_end_dialog context reason :
  emits any_event (end_dialog context reason).
Proof.
  unfold end_dialog; emits_steps; apply emits_send_to_skill.
Qed.

Lemma reply_events_hand_nothing d :
  Forall reply_event d -> handed_to_skill d = [].
Proof.
  induction 1 as [|e d He _ IH]; [reflexivity|].
  simpl. rewrite IH, app_nil_r.
  destruct e as [X c r]; destruct c; try reflexivity; discriminate.
Qed.

(** ** Begin: argument validation *)

Lemma validate_begin_dialog_args_activity options dialog_args :
  _validate_begin_dialog_args options = Ok dialog_args ->
  exists a, options_activity dialog_args = Some a.
Proof.
  unfold _validate_begin_dialog_args.
  destruct options as [o|]; [|discriminate].
  destruct (object_truthy o); simpl; [|discriminate].
  destruct (from_object o) as [args|]; [|discriminate].
  destruct (options_activity args) as [a|] eqn:Ha; [|discriminate].
  intros [= <-]; eauto.
Qed.

(** C8: a [begin_dialog] whose options are [None] (or falsy), cannot be read
    as begin-options, or carry no activity raises a [TypeError] before
    anything else happens: the world it leaves is the world it found, so
    neither state key is written and nothing is sent. *)
Theorem begin_dialog_rejects_invalid_options
    (context : TurnContext) (options : option PyObject) (w : World) :
  options = None
  \/ (exists o, options = Some o
       /\ (object_truthy o = false
           \/ from_object o = None
           \/ exists dialog_args,
                from_object o = Some dialog_args
                /\ options_activity dialog_args = None)) ->
  exists msg, begin_dialog context options w = (Raise (TypeError msg), w).
Proof.
  intros [->|(o & -> & H)]; [by eexists|].
  unfold begin_dialog, bind, lift, _validate_begin_dialog_args.
  destruct (object_truthy o) eqn:Ht; simpl; [|by eexists].
  destruct H as [H|[H|(args & H & Ha)]]; [discriminate| |].
  - rewrite H; by eexists.
  - rewrite H, Ha; by eexists.
Qed.

(** ** Continue: the end-of-conversation turn *)

(** C10: when the turn's inbound activity is an end-of-conversation,
    [continue_dialog] posts nothing to the skill, asks for no skill
    conversation id and saves no state, and leaves the frame's state alone;
    when the hosting context takes the two trace activities, the only other
    call is [dialog_context.end_dialog] with the inbound activity's value,
    whose outcome is returned. *)
Theorem continue_dialog_end_of_conversation (context : TurnContext) (w : World) :
  activity_type (context_activity context)
    = Some ActivityTypes.end_of_conversation ->
  exists d,
    (continue_dialog context w).2 = {| log := log w ++ d; frame := frame w |}
    /\ posted d = []
    /\ handed_to_skill d = []
    /\ (forall e, e ∈ d -> is_save_changes e = false)
    /\ (accepts_traces ->
        exists r,
          (continue_dialog context w).1 = r
          /\ d = [ Ev (SendTraceActivity "SkillDialog.continue_dialog()"
                         "ActivityType: endOfConversation") (Ok tt);
                   Ev (SendTraceActivity "SkillDialog.continue_dialog()"
                         "Got endOfConversation") (Ok tt);
                   Ev (DialogContextEndDialog
                         (activity_value (context_activity context))) r ]).
Proof.
  intros Hty. unfold continue_dialog, bind, call. rewrite Hty. simpl.
  destruct (env unit (log w) _) as [[]|e1] eqn:E1; simpl.
  - destruct (env unit (log w ++ _)%list _) as [[]|e2] eqn:E2; simpl.
    + eexists [_; _; _]. rewrite <- !app_assoc. simpl.
      split; [reflexivity|]. repeat split; try reflexivity.
      * intros e He. repeat (apply elem_of_cons in He as [->|He]);
          try reflexivity. by apply elem_of_nil in He.
      * intros _. eexists. split; reflexivity.
    + eexists [_; _]. rewrite <- !app_assoc. simpl.
      split; [reflexivity|]. repeat split; try reflexivity.
      * intros e He. repeat (apply elem_of_cons in He as [->|He]);
          try reflexivity. by apply elem_of_nil in He.
      * intros Hacc. rewrite Hacc in E2. discriminate.
  - eexists [_]. split; [reflexivity|]. repeat split; try reflexivity.
    + intros e He. repeat (apply elem_of_cons in He as [->|He]);
        try reflexivity. by apply elem_of_nil in He.
    + intros Hacc. rewrite Hacc in E1. discriminate.
Qed.

(** ** The skill invocation protocol *)

(** What one run of [_send_to_skill] appends to the log: the request for a
    skill conversation id, then the save, then the post, then whatever the
    replies cause; a call that raises ends the run. *)
Lemma send_to_skill_log context activity cn w :
  let o := {| from_bot_oauth_scope := turn_state_bot_oauth_scope context;
              from_bot_id := bot_id dialog_options;
              factory_activity := activity;
              bot_framework_skill := skill dialog_options |} in
  exists d,
    (_send_to_skill context activity cn w).2
      = {| log := log w ++ d; frame := frame w |}
    /\ ((exists e,
           d = [Ev (CreateSkillConversationId o) (Raise e)]
           /\ (_send_to_skill context activity cn w).1 = Raise e)
        \/ (exists cid e,
              d = [Ev (CreateSkillConversationId o) (Ok cid);
                   Ev (SaveChanges true) (Raise e)]
              /\ (_send_to_skill context activity cn w).1 = Raise e)
        \/ (exists cid r rest,
              d = Ev (CreateSkillConversationId o) (Ok cid)
                  :: Ev (SaveChanges true) (Ok tt)
                  :: Ev (PostActivity (bot_id dialog_options)
                           (app_id (skill dialog_options))
                           (skill_endpoint (skill dialog_options))
                           (skill_host_endpoint dialog_options) cid activity) r
                  :: rest
              /\ Forall reply_event rest
              /\ (opt_str_eqb (delivery_mode activity)
                     DeliveryModes.expect_replies = false -> rest = []))).
Proof.
  intros o. unfold _send_to_skill, bind, call. fold o.
  destruct (env string (log w) _) as [cid|e1]; simpl.
  2: { eexists; split; [reflexivity|]. left; by eexists. }
  destruct (env unit _ (SaveChanges true)) as [[]|e2]; simpl.
  2: { eexists [_; _]. rewrite <- !app_assoc. split; [reflexivity|].
       right; left; by do 2 eexists. }
  assert (Hnil : forall r,
            exists cid0 r0 rest,
              [Ev (CreateSkillConversationId o) (Ok cid);
               Ev (SaveChanges true) (Ok tt);
               Ev (PostActivity (bot_id dialog_options)
                     (app_id (skill dialog_options))
                     (skill_endpoint (skill dialog_options))
                     (skill_host_endpoint dialog_options) cid activity) r]
              = Ev (CreateSkillConversationId o) (Ok cid0)
                :: Ev (SaveChanges true) (Ok tt)
                :: Ev (PostActivity (bot_id dialog_options)
                         (app_id (skill dialog_options))
                         (skill_endpoint (skill dialog_options))
                         (skill_host_endpoint dialog_options) cid0 activity) r0
                :: rest
              /\ Forall reply_event rest
              /\ (opt_str_eqb (delivery_mode activity)
                     DeliveryModes.expect_replies = false -> rest = [])).
  { intros r. exists cid, r, []. split; [reflexivity|]. split; [constructor|done]. }
  destruct (env InvokeResponse _ _) as [resp|e3]; simpl.
  2: { eexists [_; _; _]. rewrite <- !app_assoc. split; [reflexivity|].
       right; right. apply Hnil. }
  destruct (status_outside_2xx (status resp)); simpl.
  { eexists [_; _; _]. rewrite <- !app_assoc. split; [reflexivity|].
    right; right. apply Hnil. }
  destruct (opt_str_eqb (delivery_mode activity) _) eqn:Hdm; simpl.
  2: { eexists [_; _; _]. rewrite <- !app_assoc. split; [reflexivity|].
       right; right. apply Hnil. }
  destruct (body_is_truthy (body resp)); simpl.
  2: { eexists [_; _; _]. rewrite <- !app_assoc. split; [reflexivity|].
       right; right. apply Hnil. }
  unfold lift.
  destruct (match body resp with Some b => body_activities b | None => _ end)
    as [replies|e4]; simpl.
  2: { eexists [_; _; _]. rewrite <- !app_assoc. split; [reflexivity|].
       right; right. apply Hnil. }
  match goal with
  | |- context [(process_replies ?c ?n ?l ?a ?w0).2] =>
      destruct (emits_process_replies c n l a w0) as (rest & Hrest & HP);
      rewrite Hrest
  end.
  simpl. eexists (_ :: _ :: _ :: rest).
  rewrite <- !app_assoc. simpl. split; [reflexivity|].
  right; right. exists cid, (Ok resp), rest. split; [reflexivity|done].
Qed.

(** Each run of [_send_to_skill] asks for one skill conversation id, for the
    activity it was given. *)
Lemma send_to_skill_hands context activity cn w :
  exists d,
    (_send_to_skill context activity cn w).2
      = {| log := log w ++ d; frame := frame w |}
    /\ handed_to_skill d = [activity].
Proof.
  destruct (send_to_skill_log context activity cn w) as (d & Hw & Hd).
  exists d. split; [exact Hw|].
  destruct Hd as [(e1 & -> & _)|[(cid & e2 & -> & _)|(cid & r & rest & -> & HP & _)]];
    try reflexivity.
  simpl. by rewrite (reply_events_hand_nothing rest).
Qed.

(** C5: in every run of [_send_to_skill], whatever the collaborators answer,
    each [post_activity] call in what the run appends to the log comes after
    a [save_changes] call of the same run that returned; and the activity is
    dispatched as soon as the id factory and the save have returned. *)
Theorem save_changes_before_post_activity
    (context : TurnContext) (activity : Activity) (cn : option string)
    (w : World) :
  exists d,
    (_send_to_skill context activity cn w).2
      = {| log := log w ++ d; frame := frame w |}
    /\ (forall d1 e d2,
          d = (d1 ++ e :: d2)%list -> is_post_activity e = true ->
          Ev (SaveChanges true) (Ok tt) ∈ d1)
    /\ (forall o cid rest,
          d = (Ev (CreateSkillConversationId o) (Ok cid)
               :: Ev (SaveChanges true) (Ok tt) :: rest)%list ->
          head (posted d) = Some activity).
Proof.
  destruct (send_to_skill_log context activity cn w) as (d & Hw & Hd).
  exists d. split; [exact Hw|]. split.
  - intros d1 e d2 -> Hpost.
    destruct Hd as [(e1 & Hd & _)|[(cid & e2 & Hd & _)|(cid & r & rest & Hd & _ & _)]].
    + destruct d1 as [|x [|y d1]]; simpl in Hd; simplify_eq; discriminate.
    + destruct d1 as [|x [|y [|z d1]]]; simpl in Hd; simplify_eq; discriminate.
    + destruct d1 as [|x [|y d1]]; simpl in Hd; simplify_eq; try discriminate.
      apply elem_of_cons; right; apply elem_of_cons; by left.
  - intros o cid rest ->.
    destruct Hd as [(e1 & Hd & _)|[(cid' & e2 & Hd & _)|(cid' & r & rest' & Hd & _ & _)]].
    + apply (f_equal length) in Hd; discriminate.
    + apply (f_equal (map returned)) in Hd; discriminate.
    + apply (f_equal (fun l => tail (tail l))) in Hd; simpl in Hd; subst rest.
      by eexists.
Qed.

Lemma status_outside_2xx_spec (s : Z) :
  status_outside_2xx s = true <-> s < 200 \/ 299 < s.
Proof. unfold status_outside_2xx. lia. Qed.

Lemma string_app_assoc (a b c : string) : (a ++ b) ++ c = a ++ (b ++ c).
Proof.
  induction a as [|x a IH]; [reflexivity|].
  change (String x ((a ++ b) ++ c) = String x (a ++ (b ++ c))).
  by rewrite IH.
Qed.

Lemma string_app_nil_r (a : string) : a ++ EmptyString = a.
Proof.
  induction a as [|x a IH]; [reflexivity|].
  change (String x (a ++ EmptyString) = String x a). by rewrite IH.
Qed.

Lemma invoke_error_message_mentions skill_info response :
  let msg := invoke_error_message skill_info response in
  mentions msg (skill_id skill_info)
  /\ mentions msg (skill_endpoint skill_info)
  /\ mentions msg (str_int (status response))
  /\ mentions msg (str_body (body response)).
Proof.
  unfold invoke_error_message, mentions. repeat split.
  - exists ("Error invoking the skill id: " ++ dquote). eexists.
    rewrite !string_app_assoc. reflexivity.
  - exists ("Error invoking the skill id: " ++ dquote ++ skill_id skill_info
            ++ dquote ++ " at " ++ dquote).
    eexists. rewrite !string_app_assoc. reflexivity.
  - exists ("Error invoking the skill id: " ++ dquote ++ skill_id skill_info
            ++ dquote ++ " at " ++ dquote ++ skill_endpoint skill_info
            ++ dquote ++ " (status is ").
    eexists. rewrite !string_app_assoc. reflexivity.
  - exists ("Error invoking the skill id: " ++ dquote ++ skill_id skill_info
            ++ dquote ++ " at " ++ dquote ++ skill_endpoint skill_info
            ++ dquote ++ " (status is " ++ str_int (status response)
            ++ "). " ++ crlf ++ " ").
    exists EmptyString.
    rewrite !string_app_assoc, string_app_nil_r. reflexivity.
Qed.

(** Once the id factory and the save have returned and the skill client has
    answered the post, the run goes on from the status check. *)
Lemma send_to_skill_answered context activity cn w cid response :
  let o := {| from_bot_oauth_scope := turn_state_bot_oauth_scope context;
              from_bot_id := bot_id dialog_options;
              factory_activity := activity;
              bot_framework_skill := skill dialog_options |} in
  let post := PostActivity (bot_id dialog_options)
                (app_id (skill dialog_options))
                (skill_endpoint (skill dialog_options))
                (skill_host_endpoint dialog_options) cid activity in
  let d := [ Ev (CreateSkillConversationId o) (Ok cid);
             Ev (SaveChanges true) (Ok tt);
             Ev post (Ok response) ] in
  let w3 := {| log := log w ++ d; frame := frame w |} in
  env string (log w) (CreateSkillConversationId o) = Ok cid ->
  env unit (log w ++ [Ev (CreateSkillConversationId o) (Ok cid)])%list
    (SaveChanges true) = Ok tt ->
  env InvokeResponse
    (log w ++ [Ev (CreateSkillConversationId o) (Ok cid);
               Ev (SaveChanges true) (Ok tt)])%list post = Ok response ->
  _send_to_skill context activity cn w
  = (if status_outside_2xx (status response)
     then raise (Exception
                   (invoke_error_message (skill dialog_options) response))
     else
       if opt_str_eqb (delivery_mode activity) DeliveryModes.expect_replies
          && body_is_truthy (body response)
       then
         do replies <-
           lift (match body response with
                 | Some b => body_activities b
                 | None => iter None
                 end);
         process_replies context cn replies None
       else ret None) w3.
Proof.
  intros o post d w3 H1 H2 H3.
  unfold _send_to_skill, bind at 1 2 3, call. fold o. rewrite H1. simpl.
  rewrite H2. simpl. fold post. rewrite <- !app_assoc. simpl.
  rewrite H3. simpl. reflexivity.
Qed.

(** C7: once the id factory and the save have returned and the skill client
    has answered the post, a status below 200 or above 299 makes
    [_send_to_skill] raise an error whose message names the skill id, the
    skill endpoint, the status and the response body, after that one post and
    nothing more (no second attempt); a status from 200 to 299 lets the run go
    on to the replies.  200 and 299 are inside, 199 and 300 outside. *)
Theorem status_outside_2xx_is_fatal
    (context : TurnContext) (activity : Activity) (cn : option string)
    (w : World) (cid : string) (response : InvokeResponse) :
  let o := {| from_bot_oauth_scope := turn_state_bot_oauth_scope context;
              from_bot_id := bot_id dialog_options;
              factory_activity := activity;
              bot_framework_skill := skill dialog_options |} in
  let post := PostActivity (bot_id dialog_options)
                (app_id (skill dialog_options))
                (skill_endpoint (skill dialog_options))
                (skill_host_endpoint dialog_options) cid activity in
  let d := [ Ev (CreateSkillConversationId o) (Ok cid);
             Ev (SaveChanges true) (Ok tt);
             Ev post (Ok response) ] in
  let w3 := {| log := log w ++ d; frame := frame w |} in
  env string (log w) (CreateSkillConversationId o) = Ok cid ->
  env unit (log w ++ [Ev (CreateSkillConversationId o) (Ok cid)])%list
    (SaveChanges true) = Ok tt ->
  env InvokeResponse
    (log w ++ [Ev (CreateSkillConversationId o) (Ok cid);
               Ev (SaveChanges true) (Ok tt)])%list post = Ok response ->
  (status response < 200 \/ 299 < status response ->
   exists msg,
     _send_to_skill context activity cn w = (Raise (Exception msg), w3)
     /\ posted d = [activity]
     /\ mentions msg (skill_id (skill dialog_options))
     /\ mentions msg (skill_endpoint (skill dialog_options))
     /\ mentions msg (str_int (status response))
     /\ mentions msg (str_body (body response)))
  /\ (200 <= status response <= 299 ->
      (opt_str_eqb (delivery_mode activity) DeliveryModes.expect_replies
       && body_is_truthy (body response) = false ->
       _send_to_skill context activity cn w = (Ok None, w3))
      /\ (forall b replies,
            opt_str_eqb (delivery_mode activity) DeliveryModes.expect_replies
            && body_is_truthy (body response) = true ->
            body response = Some b -> body_activities b = Ok replies ->
            _send_to_skill context activity cn w
              = process_replies context cn replies None w3))
  /\ status_outside_2xx 199 = true /\ status_outside_2xx 200 = false
  /\ status_outside_2xx 299 = false /\ status_outside_2xx 300 = true.
Proof.
  intros o post d w3 H1 H2 H3.
  pose proof (send_to_skill_answered context activity cn w cid response
                H1 H2 H3) as Hrun.
  fold o post d w3 in Hrun.
  split; [|split; [|by repeat split]].
  - intros Hout. apply status_outside_2xx_spec in Hout.
    rewrite Hrun, Hout. eexists. split; [reflexivity|].
    split; [reflexivity|]. apply invoke_error_message_mentions.
  - intros Hin.
    assert (Hs : status_outside_2xx (status response) = false).
    { unfold status_outside_2xx. lia. }
    rewrite Hrun, Hs. split.
    + intros ->. reflexivity.
    + intros b replies -> Hb Hr. unfold bind, lift. by rewrite Hb, Hr.
Qed.

(** ** End: the cancellation signal *)

Lemma cancellation_activity_shape context :
  activity_type (cancellation_activity context)
    = Some ActivityTypes.end_of_conversation
  /\ channel_data (cancellation_activity context)
     = channel_data (context_activity context)
  /\ additional_properties (cancellation_activity context)
     = additional_properties (context_activity context)
  /\ delivery_mode (cancellation_activity context) = None.
Proof. by repeat split. Qed.

(** What [end_dialog] appends on a cancellation or a replacement: a trace,
    then one run of [_send_to_skill] on the cancellation activity, then the
    base teardown when that run returned. *)
Lemma end_dialog_cancel_log context reason w :
  reason = CancelCalled \/ reason = ReplaceCalled ->
  exists d,
    (end_dialog context reason w).2 = {| log := log w ++ d; frame := frame w |}
    /\ ((forall e, e ∈ d -> is_base_end_dialog e = false)
        \/ (exists t c s r rb,
              d = [t; c; s;
                   Ev (PostActivity (bot_id dialog_options)
                         (app_id (skill dialog_options))
                         (skill_endpoint (skill dialog_options))
                         (skill_host_endpoint dialog_options) r.1
                         (cancellation_activity context)) r.2;
                   Ev (BaseEndDialog reason) rb]
              /\ is_post_activity t = false /\ is_post_activity c = false
              /\ is_post_activity s = false)).
Proof.
  intros Hreason.
  assert (Hbody : end_dialog context reason w
    = bind (run call (SendTraceActivity "SkillDialog.end_dialog()"
                       ("ActivityType: "
                        ++ py_str (activity_type (context_activity context))));
            run _send_to_skill context (cancellation_activity context) None;
            ret tt)
           (fun _ => call (BaseEndDialog reason)) w).
  { by destruct Hreason as [-> | ->]. }
  rewrite Hbody. clear Hbody. unfold bind at 1 2. unfold call at 1.
  destruct (env unit (log w) _) as [[]|e0]; simpl.
  2: { eexists [_]. split; [reflexivity|]. left. intros e He.
       apply list_elem_of_singleton in He as ->. reflexivity. }
  set (w1 := {| log := _; frame := frame w |}).
  destruct (send_to_skill_log context (cancellation_activity context) None w1)
    as (d & Hw & Hd).
  unfold bind.
  destruct (_send_to_skill context (cancellation_activity context) None w1)
    as [[eoc|e] w2]; simpl in *; subst w2; simpl.
  - destruct Hd as [(e1 & _ & ?)|[(cid & e2 & _ & ?)|(cid & r & rest & -> & _ & Hrest)]];
      try discriminate.
    rewrite (Hrest eq_refl). unfold call; simpl. rewrite <- !app_assoc. simpl.
    eexists [_; _; _; _; _]. split; [reflexivity|]. right.
    eexists _, _, _, (cid, r), _. by repeat split.
  - rewrite <- app_assoc. simpl. eexists (_ :: d). split; [reflexivity|].
    left. intros x Hx. apply elem_of_cons in Hx as [->|Hx]; [reflexivity|].
    destruct Hd as [(e1 & -> & _)|[(cid & e2 & -> & _)|(cid & r & rest & -> & _ & Hrest)]].
    + apply list_elem_of_singleton in Hx as ->. reflexivity.
    + repeat (apply elem_of_cons in Hx as [->|Hx]); try reflexivity.
      by apply elem_of_nil in Hx.
    + rewrite (Hrest eq_refl) in Hx.
      repeat (apply elem_of_cons in Hx as [->|Hx]); try reflexivity.
      by apply elem_of_nil in Hx.
Qed.

Lemma posted_cons_not_post e l :
  is_post_activity e = false -> posted (e :: l) = posted l.
Proof. destruct e as [X c r]; destruct c; simpl; congruence. Qed.

(** With cooperative collaborators a cancellation runs through to the base
    teardown. *)
Lemma end_dialog_cancel_cooperative context reason w :
  reason = CancelCalled \/ reason = ReplaceCalled ->
  cooperative ->
  exists d1 rb,
    (end_dialog context reason w).2
      = {| log := log w ++ d1 ++ [Ev (BaseEndDialog reason) rb];
           frame := frame w |}
    /\ posted d1 = [cancellation_activity context].
Proof.
  intros Hreason (Htrace & Hcreate & Hsave & Hpost).
  assert (Hbody : end_dialog context reason w
    = bind (run call (SendTraceActivity "SkillDialog.end_dialog()"
                       ("ActivityType: "
                        ++ py_str (activity_type (context_activity context))));
            run _send_to_skill context (cancellation_activity context) None;
            ret tt)
           (fun _ => call (BaseEndDialog reason)) w).
  { by destruct Hreason as [-> | ->]. }
  rewrite Hbody. clear Hbody.
  unfold _send_to_skill, bind, call. rewrite Htrace. simpl.
  match goal with
  | |- context [env string ?h ?c] =>
      destruct (Hcreate h
                  {| from_bot_oauth_scope := turn_state_bot_oauth_scope context;
                     from_bot_id := bot_id dialog_options;
                     factory_activity := cancellation_activity context;
                     bot_framework_skill := skill dialog_options |})
        as [cid Hc]
  end.
  rewrite Hc. simpl. rewrite Hsave. simpl.
  match goal with
  | |- context [env InvokeResponse ?h (PostActivity ?a ?b ?c ?d ?i ?x)] =>
      destruct (Hpost h a b c d i x) as (response & Hp & Hs)
  end.
  rewrite Hp. simpl.
  assert (Hin : status_outside_2xx (status response) = false).
  { unfold status_outside_2xx. lia. }
  rewrite Hin. simpl. rewrite <- !app_assoc. simpl.
  eexists [_; _; _; _], _. split; reflexivity.
Qed.

(** C9: on a cancellation or a replacement, whenever [end_dialog] reaches the
    base teardown, the teardown is its last call and exactly one activity was
    posted to the skill before it: an end-of-conversation activity carrying
    the channel data and the additional properties of the turn's activity;
    with cooperative collaborators the teardown is reached.  For any other
    reason the base teardown is the only call and nothing is posted. *)
Theorem end_dialog_sends_one_end_of_conversation
    (context : TurnContext) (reason : DialogReason) (w : World) :
  exists d,
    (end_dialog context reason w).2 = {| log := log w ++ d; frame := frame w |}
    /\ (reason = CancelCalled \/ reason = ReplaceCalled ->
        ((cooperative \/ exists e, e ∈ d /\ is_base_end_dialog e = true) ->
         exists d1 rb,
           d = (d1 ++ [Ev (BaseEndDialog reason) rb])%list
           /\ posted d1 = [cancellation_activity context])
        /\ activity_type (cancellation_activity context)
             = Some ActivityTypes.end_of_conversation
        /\ channel_data (cancellation_activity context)
             = channel_data (context_activity context)
        /\ additional_properties (cancellation_activity context)
             = additional_properties (context_activity context))
    /\ (reason <> CancelCalled -> reason <> ReplaceCalled ->
        posted d = []
        /\ exists rb, d = [Ev (BaseEndDialog reason) rb]).
Proof.
  destruct (emits_end_dialog context reason w) as (d & Hw & _).
  exists d. split; [exact Hw|]. split.
  - intros Hreason. split; [|by repeat split].
    intros [Hcoop|(e & He & Hbase)].
    + destruct (end_dialog_cancel_cooperative context reason w Hreason Hcoop)
        as (d1 & rb & Hw' & Hposted).
      exists d1, rb. split; [|exact Hposted].
      rewrite Hw in Hw'. injection Hw' as Hlog.
      by apply app_inv_head in Hlog.
    + destruct (end_dialog_cancel_log context reason w Hreason)
        as (d' & Hw' & Hd).
      rewrite Hw in Hw'. injection Hw' as Hlog.
      apply app_inv_head in Hlog. subst d'.
      destruct Hd as [Hno|(t & c & s & r & rb & -> & Ht & Hc & Hs)].
      * rewrite (Hno e He) in Hbase. discriminate.
      * eexists [_; _; _; _], rb. split; [reflexivity|].
        rewrite (posted_cons_not_post t) by done.
        rewrite (posted_cons_not_post c) by done.
        rewrite (posted_cons_not_post s) by done.
        reflexivity.
  - intros Hc Hr.
    assert (Hbody : end_dialog context reason w
                    = bind (ret tt) (fun _ => call (BaseEndDialog reason)) w).
    { by destruct reason. }
    rewrite Hbody in Hw. unfold bind, ret, call in Hw. simpl in Hw.
    injection Hw as Hlog. apply app_inv_head in Hlog. subst d.
    split; [reflexivity|by eexists].
Qed.

(** ** The session state across turns *)

(** After a valid begin whose trace was taken, the frame holds the two
    values of the options, whatever happened to the forwarding. *)
Lemma begin_dialog_frame context options dialog_args w :
  _validate_begin_dialog_args options = Ok dialog_args ->
  accepts_traces ->
  exists a d,
    options_activity dialog_args = Some a
    /\ (begin_dialog context options w).2
       = {| log := log w ++ d;
            frame := <[_sso_connection_name_key :=
                         options_connection_name dialog_args]>
                       (<[_deliver_mode_state_key := delivery_mode a]>
                          (frame w)) |}.
Proof.
  intros Hv Htrace.
  destruct (validate_begin_dialog_args_activity _ _ Hv) as [a Ha].
  exists a. unfold begin_dialog, bind at 1 2 3, lift, call at 1.
  rewrite Hv, Ha. simpl. rewrite Htrace. simpl.
  unfold bind at 1 2, set_state. simpl.
  set (w1 := {| log := _; frame := _ |}).
  unfold bind.
  destruct (emits_send_to_skill context
              (apply_conversation_reference a
                 (get_conversation_reference (context_activity context)) true)
              (options_connection_name dialog_args) w1) as (d & Hd & _).
  destruct (_send_to_skill _ _ _ w1) as [[[eoc|]|e] w2]; simpl in Hd; subst w2;
    simpl; rewrite <- ?app_assoc; eexists; split; reflexivity.
Qed.

(** A [continue_dialog] turn stamps the stored delivery mode on what it
    forwards. *)
Lemma continue_dialog_hands context w v :
  frame w !! _deliver_mode_state_key = Some v ->
  exists d,
    (continue_dialog context w).2 = {| log := log w ++ d; frame := frame w |}
    /\ (forall a, a ∈ handed_to_skill d -> delivery_mode a = v).
Proof.
  intros Hdm. unfold continue_dialog, bind at 1, call at 1.
  destruct (env unit (log w) _) as [[]|e0]; simpl.
  2: { eexists [_]. split; [reflexivity|]. intros a Ha.
       by apply elem_of_nil in Ha. }
  destruct (opt_str_eqb _ _).
  { unfold bind, call. simpl.
    destruct (env unit _ _) as [[]|e1]; simpl; rewrite <- ?app_assoc; simpl;
      eexists; (split; [reflexivity|]); intros a Ha;
      by apply elem_of_nil in Ha. }
  unfold bind at 1, get_state at 1. simpl. rewrite Hdm.
  unfold bind at 1, get_state at 1. simpl.
  destruct (frame w !! _sso_connection_name_key) as [cn|].
  2: { eexists [_]. split; [reflexivity|]. intros a Ha.
       by apply elem_of_nil in Ha. }
  set (w1 := {| log := _; frame := frame w |}).
  destruct (send_to_skill_hands context
              (set_delivery_mode v (context_activity context)) cn w1)
    as (d & Hd & Hh).
  unfold bind.
  destruct (_send_to_skill _ _ _ w1) as [[[eoc|]|e] w2]; simpl in Hd; subst w2;
    unfold call, ret; simpl; rewrite <- ?app_assoc; simpl;
    eexists; (split; [reflexivity|]); intros a Ha; simpl in Ha;
    unfold handed_to_skill in Ha; rewrite ?flat_map_app in Ha; simpl in Ha;
    rewrite ?app_nil_r in Ha; fold (handed_to_skill d) in Ha;
    rewrite Hh in Ha; apply list_elem_of_singleton in Ha as ->; reflexivity.
Qed.

Lemma continue_turns_hands contexts w v :
  frame w !! _deliver_mode_state_key = Some v ->
  exists d,
    continue_turns contexts w = {| log := log w ++ d; frame := frame w |}
    /\ (forall a, a ∈ handed_to_skill d -> delivery_mode a = v).
Proof.
  revert w; induction contexts as [|c cs IH]; intros w Hdm; simpl.
  - exists []. split; [apply world_eta|]. intros a Ha.
    by apply elem_of_nil in Ha.
  - destruct (continue_dialog_hands c w v Hdm) as (d & Hd & Hh). rewrite Hd.
    destruct (IH {| log := log w ++ d; frame := frame w |} Hdm)
      as (d' & Hd' & Hh').
    exists (d ++ d')%list. rewrite Hd'. simpl. rewrite app_assoc.
    split; [reflexivity|]. intros a Ha.
    unfold handed_to_skill in Ha. rewrite flat_map_app in Ha.
    apply elem_of_app in Ha as [Ha|Ha]; auto.
Qed.

(** C4: after a valid begin (the options pass validation and the hosting
    context takes the trace), the frame's state holds the delivery mode of
    the supplied activity and the supplied connection name; any number of
    [continue_dialog] turns, whatever they give, leaves the frame's state as
    it is, and every activity such a turn forwards carries that delivery
    mode. *)
Theorem session_state_fixed_at_begin
    (context : TurnContext) (options : option PyObject)
    (dialog_args : BeginSkillDialogOptions) (w : World) :
  _validate_begin_dialog_args options = Ok dialog_args ->
  accepts_traces ->
  let w1 := (begin_dialog context options w).2 in
  frame w1 !! _deliver_mode_state_key
    = delivery_mode <$> options_activity dialog_args
  /\ frame w1 !! _sso_connection_name_key
     = Some (options_connection_name dialog_args)
  /\ forall contexts : list TurnContext,
      exists d,
        continue_turns contexts w1
          = {| log := log w1 ++ d; frame := frame w1 |}
        /\ (forall a, a ∈ handed_to_skill d ->
            Some (delivery_mode a)
              = delivery_mode <$> options_activity dialog_args).
Proof.
  intros Hv Htrace w1.
  destruct (begin_dialog_frame context options dialog_args w Hv Htrace)
    as (a & d0 & Ha & Hw1).
  assert (Hdm : frame w1 !! _deliver_mode_state_key = Some (delivery_mode a)).
  { unfold w1. rewrite Hw1. simpl.
    rewrite lookup_insert_ne by done. apply lookup_insert_eq. }
  split; [by rewrite Ha|]. split.
  { unfold w1. rewrite Hw1. simpl. apply lookup_insert_eq. }
  intros contexts.
  destruct (continue_turns_hands contexts w1 _ Hdm) as (d & Hd & Hh).
  exists d. split; [exact Hd|]. intros x Hx. rewrite Ha. simpl.
  by rewrite (Hh x Hx).
Qed.

(** ** OAuth card interception *)

(** The true division by 100 gives 2 for the status 200 and for no other. *)
Lemma status_div_100_is_2_spec (s : Z) :
  status_div_100_is_2 s = true <-> s = 200.
Proof.
  unfold status_div_100_is_2. rewrite Qeq_bool_iff.
  unfold Qeq, Qdiv, Qmult, Qinv, inject_Z. simpl. lia.
Qed.

(** The follow-up invoke is reported as handled for the status 200 only. *)
Lemma send_token_exchange_invoke_handled incoming rid cn tok w reply
    incoming_conversation response :
  create_reply incoming = Ok reply ->
  conversation incoming = Some incoming_conversation ->
  env InvokeResponse (log w)
    (PostActivity (bot_id dialog_options) (app_id (skill dialog_options))
       (skill_endpoint (skill dialog_options))
       (skill_host_endpoint dialog_options)
       (conversation_id incoming_conversation)
       (set_type_name_value ActivityTypes.invoke
          SignInConstants.token_exchange_operation_name
          (VTokenExchangeInvokeRequest
             {| request_id := rid; request_token := tok;
                request_connection_name := cn |})
          reply))
    = Ok response ->
  (_send_token_exchange_invoke_to_skill incoming rid cn tok w).1
    = Ok (status response =? 200).
Proof.
  intros Hreply Hconv Hpost.
  unfold _send_token_exchange_invoke_to_skill, bind, lift, call.
  rewrite Hreply, Hconv. simpl. rewrite Hpost. simpl. f_equal.
  destruct (status_div_100_is_2 (status response)) eqn:Hs.
  - apply status_div_100_is_2_spec in Hs. rewrite Hs. reflexivity.
  - symmetry. apply Z.eqb_neq. intros Heq.
    apply status_div_100_is_2_spec in Heq. congruence.
Qed.

(** The gate: with no connection name, or an adapter that is no extended
    token provider, nothing is attempted. *)
Lemma intercept_gate_closed context activity cn w :
  truthy_str cn = false
  \/ adapter_is_extended_user_token_provider context = false ->
  _intercept_oauth_cards context activity cn w = (Ok false, w).
Proof.
  unfold _intercept_oauth_cards. intros [-> | ->]; [reflexivity|].
  by rewrite orb_true_r.
Qed.

(** Past the gate, [next] on attachments without an OAuth card. *)
Lemma intercept_next_exhausted context activity cn atts w :
  truthy_str cn = true ->
  adapter_is_extended_user_token_provider context = true ->
  attachments activity = Some atts ->
  List.filter is_oauth_card atts = [] ->
  _intercept_oauth_cards context activity cn w
    = (Raise (RuntimeError "coroutine raised StopIteration"), w).
Proof.
  intros Hcn Had Hatts Hnone. unfold _intercept_oauth_cards, bind, lift.
  rewrite Hcn, Had, Hatts. simpl. by rewrite Hnone.
Qed.

(** C2: past the gate (a connection name is supplied and the adapter is an
    extended token provider), an activity with no OAuth card among its
    attachments makes the interception raise instead of returning false, with
    no token exchange attempted: [next] has no default and sits outside the
    [try] block; an activity whose attachments are [None] raises as well. *)
Theorem intercept_without_card_raises
    (context : TurnContext) (activity : Activity) (cn : option string)
    (w : World) :
  truthy_str cn = true ->
  adapter_is_extended_user_token_provider context = true ->
  (forall atts,
     attachments activity = Some atts ->
     List.filter is_oauth_card atts = [] ->
     _intercept_oauth_cards context activity cn w
       = (Raise (RuntimeError "coroutine raised StopIteration"), w))
  /\ (attachments activity = None ->
      _intercept_oauth_cards context activity cn w
        = (Raise (TypeError "'NoneType' object is not iterable"), w)).
Proof.
  intros Hcn Had. split.
  - intros atts Hatts Hnone. by apply intercept_next_exhausted with atts.
  - intros Hatts. unfold _intercept_oauth_cards, bind, lift.
    by rewrite Hcn, Had, Hatts.
Qed.


(** C6: when an interception gets a non-empty token from the token provider,
    and the schema builds the reply, the follow-up activity has type
    [invoke], the token exchange operation name, and a value made of the
    card's resource id, the exchanged token and the card's own connection
    name; it is posted with the incoming activity's conversation id, and no
    skill conversation id is asked for. *)
Theorem token_exchange_invoke_wire_shape
    (context : TurnContext) (activity : Activity) (cn : option string)
    (w : World) (atts others : list Attachment) (att : Attachment)
    (oauth_card : OAuthCard) (resource : TokenExchangeResource)
    (user : ChannelAccount) (token_response : TokenResponse)
    (reply : Activity) (incoming_conversation : ConversationAccount) :
  truthy_str cn = true ->
  adapter_is_extended_user_token_provider context = true ->
  attachments activity = Some atts ->
  List.filter is_oauth_card atts = att :: others ->
  content att = Some oauth_card ->
  token_exchange_resource oauth_card = Some resource ->
  truthy_str (resource_uri resource) = true ->
  from_property (context_activity context) = Some user ->
  env (option TokenResponse) (log w)
    (ExchangeToken cn (account_id user) (resource_uri resource))
    = Ok (Some token_response) ->
  truthy_str (token token_response) = true ->
  create_reply activity = Ok reply ->
  conversation activity = Some incoming_conversation ->
  exists invoke r,
    let d := [ Ev (ExchangeToken cn (account_id user) (resource_uri resource))
                  (Ok (Some token_response));
               Ev (PostActivity (bot_id dialog_options)
                     (app_id (skill dialog_options))
                     (skill_endpoint (skill dialog_options))
                     (skill_host_endpoint dialog_options)
                     (conversation_id incoming_conversation) invoke)
                  r ] in
    (_intercept_oauth_cards context activity cn w).2
      = {| log := log w ++ d; frame := frame w |}
    /\ posted d = [invoke]
    /\ handed_to_skill d = []
    /\ activity_type invoke = Some ActivityTypes.invoke
    /\ activity_name invoke
       = Some SignInConstants.token_exchange_operation_name
    /\ activity_value invoke
       = VTokenExchangeInvokeRequest
           {| request_id := resource_id resource;
              request_token := token token_response;
              request_connection_name := card_connection_name oauth_card |}.
Proof.
  intros Hcn Had Hatts Hcard Hcontent Hres Huri Huser Hex Htok Hreply Hconv.
  set (invoke :=
         set_type_name_value ActivityTypes.invoke
           SignInConstants.token_exchange_operation_name
           (VTokenExchangeInvokeRequest
              {| request_id := resource_id resource;
                 request_token := token token_response;
                 request_connection_name := card_connection_name oauth_card |})
           reply).
  assert (Hrun : exists r b,
            _intercept_oauth_cards context activity cn w
            = (b, {| log := log w
                       ++ [ Ev (ExchangeToken cn (account_id user)
                                  (resource_uri resource))
                               (Ok (Some token_response));
                            Ev (PostActivity (bot_id dialog_options)
                                  (app_id (skill dialog_options))
                                  (skill_endpoint (skill dialog_options))
                                  (skill_host_endpoint dialog_options)
                                  (conversation_id incoming_conversation)
                                  invoke) r ];
                     frame := frame w |})).
  { unfold _intercept_oauth_cards. rewrite Hcn, Had. simpl.
    unfold bind at 1 2, lift at 1 2. rewrite Hatts. simpl. rewrite Hcard.
    simpl. rewrite Hcontent, Hres, Huri.
    unfold try_except, bind at 1 2, lift at 1, call at 1.
    rewrite Huser. simpl. rewrite Hex. simpl. rewrite Htok.
    unfold _send_token_exchange_invoke_to_skill, bind, lift, call.
    rewrite Hreply, Hconv. simpl. fold invoke.
    match goal with
    | |- context [env InvokeResponse ?h ?c] =>
        destruct (env InvokeResponse h c)
    end; simpl; rewrite <- !app_assoc; simpl; by eexists _, _. }
  destruct Hrun as (r & b & Hrun). exists invoke, r. rewrite Hrun. simpl.
  by repeat split.
Qed.

(** C1: when the token exchange gives a non-empty token and the skill client
    answers the follow-up invoke with [response], the interception reports
    handled exactly when the status is 200: a status from 201 to 299 gives
    false, although [_send_to_skill] counts it as a success. *)
Theorem intercept_handled_only_on_200
    (context : TurnContext) (activity : Activity) (cn : option string)
    (w : World) (atts others : list Attachment) (att : Attachment)
    (oauth_card : OAuthCard) (resource : TokenExchangeResource)
    (user : ChannelAccount) (token_response : TokenResponse)
    (reply : Activity) (incoming_conversation : ConversationAccount)
    (response : InvokeResponse) :
  truthy_str cn = true ->
  adapter_is_extended_user_token_provider context = true ->
  attachments activity = Some atts ->
  List.filter is_oauth_card atts = att :: others ->
  content att = Some oauth_card ->
  token_exchange_resource oauth_card = Some resource ->
  truthy_str (resource_uri resource) = true ->
  from_property (context_activity context) = Some user ->
  env (option TokenResponse) (log w)
    (ExchangeToken cn (account_id user) (resource_uri resource))
    = Ok (Some token_response) ->
  truthy_str (token token_response) = true ->
  create_reply activity = Ok reply ->
  conversation activity = Some incoming_conversation ->
  env InvokeResponse
    (log w ++ [Ev (ExchangeToken cn (account_id user) (resource_uri resource))
                 (Ok (Some token_response))])%list
    (PostActivity (bot_id dialog_options) (app_id (skill dialog_options))
       (skill_endpoint (skill dialog_options))
       (skill_host_endpoint dialog_options)
       (conversation_id incoming_conversation)
       (set_type_name_value ActivityTypes.invoke
          SignInConstants.token_exchange_operation_name
          (VTokenExchangeInvokeRequest
             {| request_id := resource_id resource;
                request_token := token token_response;
                request_connection_name := card_connection_name oauth_card |})
          reply))
    = Ok response ->
  (_intercept_oauth_cards context activity cn w).1
    = Ok (status response =? 200)
  /\ (200 < status response <= 299 ->
      (_intercept_oauth_cards context activity cn w).1 = Ok false
      /\ status_outside_2xx (status response) = false).
Proof.
  intros Hcn Had Hatts Hcard Hcontent Hres Huri Huser Hex Htok Hreply Hconv
    Hpost.
  assert (Hrun : (_intercept_oauth_cards context activity cn w).1
                 = Ok (status response =? 200)).
  { unfold _intercept_oauth_cards. rewrite Hcn, Had. simpl.
    unfold bind at 1 2, lift at 1 2. rewrite Hatts. simpl. rewrite Hcard.
    simpl. rewrite Hcontent, Hres, Huri.
    unfold try_except, bind at 1 2, lift at 1, call at 1.
    rewrite Huser. simpl. rewrite Hex. simpl. rewrite Htok.
    match goal with
    | |- context [_send_token_exchange_invoke_to_skill ?a ?i ?c ?t ?w0] =>
        pose proof (send_token_exchange_invoke_handled a i c t w0 reply
                      incoming_conversation response Hreply Hconv Hpost)
          as Hhandled;
        destruct (_send_token_exchange_invoke_to_skill a i c t w0)
          as [[b|e] w1]
    end; simpl in *; congruence. }
  split; [exact Hrun|]. intros Hrange. rewrite Hrun. split.
  - f_equal. apply Z.eqb_neq. lia.
  - unfold status_outside_2xx. lia.
Qed.

(** ** The batch of expected replies *)

Lemma interception_events_surface_nothing d :
  Forall interception_event d -> surfaced d = [].
Proof.
  induction 1 as [|e d He _ IH]; [reflexivity|].
  simpl. rewrite IH, app_nil_r.
  destruct e as [X c r]; destruct c; try reflexivity; discriminate.
Qed.

Lemma surfaced_app d1 d2 : surfaced (d1 ++ d2) = (surfaced d1 ++ surfaced d2)%list.
Proof. apply flat_map_app. Qed.

(** Whatever the collaborators do, what a batch surfaces is made of replies
    of the batch that are no end-of-conversation, in the order of the
    batch. *)
Lemma process_replies_surfaces context cn replies eoc w :
  exists d,
    (process_replies context cn replies eoc w).2
      = {| log := log w ++ d; frame := frame w |}
    /\ sublist (surfaced d) (List.filter not_end_of_conversation replies).
Proof.
  revert eoc w; induction replies as [|a rest IH]; intros eoc w; simpl.
  - exists []. split; [apply world_eta | constructor].
  - unfold not_end_of_conversation at 1, is_end_of_conversation at 1.
    destruct (opt_str_eqb (activity_type a) _); simpl; [apply IH|].
    unfold bind at 1.
    destruct (emits_intercept_oauth_cards context a cn w) as (d0 & Hd0 & HP).
    apply interception_events_surface_nothing in HP.
    destruct (_intercept_oauth_cards context a cn w) as [[[|]|e] w0];
      simpl in Hd0; subst w0.
    + destruct (IH eoc {| log := log w ++ d0; frame := frame w |})
        as (d & Hd & Hs).
      exists (d0 ++ d)%list. rewrite Hd. simpl. rewrite app_assoc.
      split; [reflexivity|]. rewrite surfaced_app, HP. simpl.
      by apply sublist_cons.
    + unfold bind, call. simpl.
      destruct (env unit (log w ++ d0)%list (SendActivity a)) as [[]|e].
      * match goal with
        | |- context [process_replies _ _ _ _ ?w1] =>
            destruct (IH eoc w1) as (d & Hd & Hs)
        end.
        exists (d0 ++ Ev (SendActivity a) (Ok tt) :: d)%list.
        rewrite Hd. simpl. rewrite <- !app_assoc. simpl.
        split; [reflexivity|]. rewrite surfaced_app, HP. simpl.
        by apply sublist_skip.
      * exists (d0 ++ [Ev (SendActivity a) (Raise e)])%list.
        simpl. rewrite <- !app_assoc.
        split; [reflexivity|]. rewrite surfaced_app, HP. simpl.
        apply sublist_skip. apply sublist_nil_l.
    + exists d0. split; [reflexivity|]. rewrite HP. apply sublist_nil_l.
Qed.

(** A batch that is processed to its end returns its last
    end-of-conversation activity. *)
Lemma process_replies_captures context cn replies eoc w captured :
  (process_replies context cn replies eoc w).1 = Ok captured ->
  captured = last_end_of_conversation replies eoc.
Proof.
  revert eoc w; induction replies as [|a rest IH]; intros eoc w; simpl.
  - by intros [= ->].
  - unfold is_end_of_conversation.
    destruct (opt_str_eqb (activity_type a) _); [apply IH|].
    unfold bind at 1.
    destruct (_intercept_oauth_cards context a cn w) as [[[|]|e] w0];
      [apply IH| |discriminate].
    unfold bind. destruct (call (SendActivity a) w0) as [[[]|e] w1];
      [apply IH|discriminate].
Qed.

(** With the gate closed and a hosting context that takes every activity,
    the batch surfaces each reply that is no end-of-conversation, in order,
    and returns the last end-of-conversation. *)
Lemma process_replies_gate_closed context cn replies eoc w :
  truthy_str cn = false
  \/ adapter_is_extended_user_token_provider context = false ->
  accepts_activities ->
  exists d,
    process_replies context cn replies eoc w
      = (Ok (last_end_of_conversation replies eoc),
         {| log := log w ++ d; frame := frame w |})
    /\ surfaced d = List.filter not_end_of_conversation replies
    /\ posted d = [].
Proof.
  intros Hgate Hsend.
  revert eoc w; induction replies as [|a rest IH]; intros eoc w; simpl.
  - exists []. split; [by rewrite <- world_eta|done].
  - unfold not_end_of_conversation at 1, is_end_of_conversation at 1 2.
    destruct (opt_str_eqb (activity_type a) _); simpl; [apply IH|].
    unfold bind at 1. rewrite (intercept_gate_closed _ _ _ _ Hgate).
    unfold bind, call. rewrite Hsend.
    match goal with
    | |- context [process_replies _ _ _ _ ?w1] =>
        destruct (IH eoc w1) as (d & Hd & Hs & Hp)
    end.
    exists (Ev (SendActivity a) (Ok tt) :: d). rewrite Hd. simpl.
    rewrite <- app_assoc. simpl. split; [reflexivity|].
    split; [by rewrite Hs | exact Hp].
Qed.

(** C3: the skill answers an expect-replies activity with a batch whose
    first reply is no end-of-conversation and carries no OAuth card, while a
    connection name is supplied and the adapter is an extended token
    provider.  The reply is neither captured nor intercepted, and it is not
    surfaced: the interception raises and [_send_to_skill] raises with it,
    after the post, with nothing sent to the user. *)
Theorem batch_reply_without_card_aborts
    (context : TurnContext) (activity : Activity) (cn : option string)
    (w : World) (cid : string) (response : InvokeResponse)
    (b : ResponseBody) (reply : Activity) (rest : list Activity)
    (atts : list Attachment) :
  let o := {| from_bot_oauth_scope := turn_state_bot_oauth_scope context;
              from_bot_id := bot_id dialog_options;
              factory_activity := activity;
              bot_framework_skill := skill dialog_options |} in
  let post := PostActivity (bot_id dialog_options)
                (app_id (skill dialog_options))
                (skill_endpoint (skill dialog_options))
                (skill_host_endpoint dialog_options) cid activity in
  let d := [ Ev (CreateSkillConversationId o) (Ok cid);
             Ev (SaveChanges true) (Ok tt);
             Ev post (Ok response) ] in
  env string (log w) (CreateSkillConversationId o) = Ok cid ->
  env unit (log w ++ [Ev (CreateSkillConversationId o) (Ok cid)])%list
    (SaveChanges true) = Ok tt ->
  env InvokeResponse
    (log w ++ [Ev (CreateSkillConversationId o) (Ok cid);
               Ev (SaveChanges true) (Ok tt)])%list post = Ok response ->
  200 <= status response <= 299 ->
  delivery_mode activity = Some DeliveryModes.expect_replies ->
  body response = Some b -> body_truthy b = true ->
  body_activities b = Ok (reply :: rest) ->
  not_end_of_conversation reply = true ->
  truthy_str cn = true ->
  adapter_is_extended_user_token_provider context = true ->
  attachments reply = Some atts ->
  List.filter is_oauth_card atts = [] ->
  _send_to_skill context activity cn w
    = (Raise (RuntimeError "coroutine raised StopIteration"),
       {| log := log w ++ d; frame := frame w |})
  /\ surfaced d = [].
Proof.
  intros o post d H1 H2 H3 Hstatus Hdm Hbody Htruthy Hreplies Hreply Hcn Had
    Hatts Hnone.
  split; [|reflexivity].
  rewrite (send_to_skill_answered context activity cn w cid response H1 H2 H3).
  assert (Hs : status_outside_2xx (status response) = false).
  { unfold status_outside_2xx. lia. }
  rewrite Hs, Hdm, Hbody. simpl. rewrite Htruthy. simpl.
  unfold bind at 1, lift. rewrite Hreplies. simpl.
  unfold not_end_of_conversation, is_end_of_conversation in Hreply.
  apply negb_true_iff in Hreply. rewrite Hreply.
  unfold bind.
  by rewrite (intercept_next_exhausted context reply cn atts _
                Hcn Had Hatts Hnone).
Qed.


(** ** Further properties: failures of the collaborators *)

(** An exception of the id factory, of the save or of the skill client ends
    [_send_to_skill] with that exception: after a failed id request nothing
    is saved or posted, after a failed save nothing is posted, and after a
    failed post nothing else is called. *)
Theorem send_to_skill_propagates_failures
    (context : TurnContext) (activity : Activity) (cn : option string)
    (w : World) :
  let o := factory_options context activity in
  (forall e,
     env string (log w) (CreateSkillConversationId o) = Raise e ->
     _send_to_skill context activity cn w
     = (Raise e,
        {| log := log w ++ [Ev (CreateSkillConversationId o) (Raise e)];
           frame := frame w |}))
  /\ (forall cid e,
        env string (log w) (CreateSkillConversationId o) = Ok cid ->
        env unit (log w ++ [Ev (CreateSkillConversationId o) (Ok cid)])%list
          (SaveChanges true) = Raise e ->
        _send_to_skill context activity cn w
        = (Raise e,
           {| log := log w ++ [Ev (CreateSkillConversationId o) (Ok cid);
                               Ev (SaveChanges true) (Raise e)];
              frame := frame w |}))
  /\ (forall cid e,
        env string (log w) (CreateSkillConversationId o) = Ok cid ->
        env unit (log w ++ [Ev (CreateSkillConversationId o) (Ok cid)])%list
          (SaveChanges true) = Ok tt ->
        env InvokeResponse
          (log w ++ [Ev (CreateSkillConversationId o) (Ok cid);
                     Ev (SaveChanges true) (Ok tt)])%list
          (skill_post cid activity) = Raise e ->
        _send_to_skill context activity cn w
        = (Raise e,
           {| log := log w ++ [Ev (CreateSkillConversationId o) (Ok cid);
                               Ev (SaveChanges true) (Ok tt);
                               Ev (skill_post cid activity) (Raise e)];
              frame := frame w |})).
Proof.
  intros o. unfold o, factory_options, skill_post. repeat split.
  - intros e H1. unfold _send_to_skill, bind, call. by rewrite H1.
  - intros cid e H1 H2. unfold _send_to_skill, bind, call.
    rewrite H1. simpl. rewrite H2. simpl. by rewrite <- app_assoc.
  - intros cid e H1 H2 H3. unfold _send_to_skill, bind, call.
    rewrite H1. simpl. rewrite H2. simpl. rewrite <- !app_assoc. simpl.
    rewrite H3. simpl. reflexivity.
Qed.

(** A run of [_send_to_skill] on an activity that does not ask for expected
    replies: at most the one post, nothing surfaced, no token exchange, and
    no end-of-conversation captured. *)
Lemma send_to_skill_without_replies context activity cn w :
  opt_str_eqb (delivery_mode activity) DeliveryModes.expect_replies = false ->
  exists r d,
    _send_to_skill context activity cn w
      = (r, {| log := log w ++ d; frame := frame w |})
    /\ surfaced d = []
    /\ Forall (fun e => is_exchange_token e = false
                        /\ is_base_end_dialog e = false
                        /\ is_dialog_context_end_dialog e = false) d
    /\ (posted d = [] \/ posted d = [activity])
    /\ (r = Ok None /\ posted d = [activity] \/ exists e, r = Raise e).
Proof.
  intros Hdm. unfold _send_to_skill, bind, call.
  destruct (env string (log w) _) as [cid|e1]; simpl.
  2: { eexists _, [_]. split; [reflexivity|].
       repeat split; eauto; try (by repeat constructor). }
  destruct (env unit _ (SaveChanges true)) as [[]|e2]; simpl.
  2: { eexists _, [_; _]. rewrite <- !app_assoc. split; [reflexivity|].
       repeat split; eauto; try (by repeat constructor). }
  destruct (env InvokeResponse _ _) as [resp|e3]; simpl.
  2: { eexists _, [_; _; _]. rewrite <- !app_assoc. split; [reflexivity|].
       repeat split; eauto; try (by repeat constructor). }
  destruct (status_outside_2xx (status resp)); simpl.
  { eexists _, [_; _; _]. rewrite <- !app_assoc. split; [reflexivity|].
    repeat split; eauto; try (by repeat constructor). }
  rewrite Hdm. simpl.
  eexists _, [_; _; _]. rewrite <- !app_assoc. split; [reflexivity|].
  repeat split; eauto; try (by repeat constructor).
Qed.

(** With cooperative collaborators such a run returns. *)
Lemma send_to_skill_cooperative context activity cn w :
  cooperative ->
  opt_str_eqb (delivery_mode activity) DeliveryModes.expect_replies = false ->
  (_send_to_skill context activity cn w).1 = Ok None.
Proof.
  intros (Htrace & Hcreate & Hsave & Hpost) Hdm.
  unfold _send_to_skill, bind, call.
  destruct (Hcreate (log w)
              {| from_bot_oauth_scope := turn_state_bot_oauth_scope context;
                 from_bot_id := bot_id dialog_options;
                 factory_activity := activity;
                 bot_framework_skill := skill dialog_options |})
    as [cid Hc].
  rewrite Hc. simpl. rewrite Hsave. simpl.
  match goal with
  | |- context [env InvokeResponse ?h (PostActivity ?a ?b ?c ?d ?i ?x)] =>
      destruct (Hpost h a b c d i x) as (response & Hp & Hs)
  end.
  rewrite Hp. simpl.
  assert (Hin : status_outside_2xx (status response) = false).
  { unfold status_outside_2xx. lia. }
  by rewrite Hin, Hdm.
Qed.


(** ** Further properties: reprompt and resume *)

Lemma reprompt_activity_delivery_mode context :
  opt_str_eqb (delivery_mode (reprompt_activity context))
    DeliveryModes.expect_replies = false.
Proof. reflexivity. Qed.


(** [resume_dialog] reprompts and then signals the end of the turn: it posts
    at most the reprompt event, surfaces nothing, never returns anything but
    [end_of_turn], and returns it with cooperative collaborators. *)
Theorem resume_dialog_consumes_the_turn (context : TurnContext) (w : World) :
  exists d,
    (resume_dialog context w).2 = {| log := log w ++ d; frame := frame w |}
    /\ surfaced d = []
    /\ (posted d = [] \/ posted d = [reprompt_activity context])
    /\ (forall result,
          (resume_dialog context w).1 = Ok result ->
          result = end_of_turn /\ posted d = [reprompt_activity context])
    /\ (cooperative -> (resume_dialog context w).1 = Ok end_of_turn).
Proof.
  destruct (send_to_skill_without_replies context (reprompt_activity context)
              None w (reprompt_activity_delivery_mode context))
    as (r & d & Hrun & Hs & Hx & Hp & Hr).
  assert (Hbody : resume_dialog context w
                  = bind (bind (_send_to_skill context
                                  (reprompt_activity context) None)
                            (fun _ => ret tt))
                      (fun _ => ret end_of_turn) w) by reflexivity.
  exists d. rewrite Hbody. unfold bind. rewrite Hrun.
  split; [by destruct r|]. split; [exact Hs|]. split; [exact Hp|]. split.
  { intros result.
    destruct Hr as [[-> Hposted]|[e ->]]; simpl; [|discriminate].
    by intros [= <-]. }
  intros Hcoop.
  pose proof (send_to_skill_cooperative context (reprompt_activity context)
                None w Hcoop (reprompt_activity_delivery_mode context))
    as Hok.
  rewrite Hrun in Hok. simpl in Hok. by rewrite Hok.
Qed.

(** ** Further properties: a cancellation that the skill rejects *)

(** On a cancellation or a replacement, when the skill answers the
    end-of-conversation activity with a status outside 200..299,
    [end_dialog] raises the invocation error and the base teardown is not
    called. *)
Theorem end_dialog_rejected_signal_skips_teardown
    (context : TurnContext) (reason : DialogReason) (w : World)
    (cid : string) (response : InvokeResponse) :
  let trace := Ev (SendTraceActivity "SkillDialog.end_dialog()"
                     ("ActivityType: "
                      ++ py_str (activity_type (context_activity context))))
                 (Ok tt) in
  let o := factory_options context (cancellation_activity context) in
  let post := skill_post cid (cancellation_activity context) in
  let d := [ trace;
             Ev (CreateSkillConversationId o) (Ok cid);
             Ev (SaveChanges true) (Ok tt);
             Ev post (Ok response) ] in
  reason = CancelCalled \/ reason = ReplaceCalled ->
  accepts_traces ->
  env string (log w ++ [trace])%list (CreateSkillConversationId o) = Ok cid ->
  env unit (log w ++ [trace; Ev (CreateSkillConversationId o) (Ok cid)])%list
    (SaveChanges true) = Ok tt ->
  env InvokeResponse
    (log w ++ [trace; Ev (CreateSkillConversationId o) (Ok cid);
               Ev (SaveChanges true) (Ok tt)])%list post = Ok response ->
  status response < 200 \/ 299 < status response ->
  end_dialog context reason w
    = (Raise (Exception
                (invoke_error_message (skill dialog_options) response)),
       {| log := log w ++ d; frame := frame w |})
  /\ (forall e, e ∈ d -> is_base_end_dialog e = false).
Proof.
  intros trace o post d Hreason Htrace H1 H2 H3 Hout.
  split.
  2: { intros e He. unfold d in He.
       repeat (apply elem_of_cons in He as [->|He]); try reflexivity.
       by apply elem_of_nil in He. }
  assert (Hbody : end_dialog context reason w
    = bind (run call (SendTraceActivity "SkillDialog.end_dialog()"
                       ("ActivityType: "
                        ++ py_str (activity_type (context_activity context))));
            run _send_to_skill context (cancellation_activity context) None;
            ret tt)
           (fun _ => call (BaseEndDialog reason)) w).
  { by destruct Hreason as [-> | ->]. }
  rewrite Hbody. clear Hbody. unfold bind at 1 2. unfold call at 1.
  rewrite Htrace. simpl. unfold bind.
  rewrite (send_to_skill_answered context (cancellation_activity context) None
             _ cid response); simpl; rewrite <- ?app_assoc; simpl;
    [|exact H1|exact H2|exact H3].
  apply status_outside_2xx_spec in Hout. rewrite Hout. reflexivity.
Qed.


(** ** Further properties: what the interception swallows *)

(** An OAuth card with no content, no token exchange resource or an empty
    resource uri is left alone: the interception returns false and calls no
    collaborator, whatever the connection name and the adapter. *)
Theorem intercept_card_without_uri
    (context : TurnContext) (activity : Activity) (cn : option string)
    (w : World) (atts others : list Attachment) (att : Attachment) :
  attachments activity = Some atts ->
  List.filter is_oauth_card atts = att :: others ->
  content att = None
  \/ (exists oauth_card,
        content att = Some oauth_card
        /\ (token_exchange_resource oauth_card = None
            \/ exists resource,
                 token_exchange_resource oauth_card = Some resource
                 /\ truthy_str (resource_uri resource) = false)) ->
  _intercept_oauth_cards context activity cn w = (Ok false, w).
Proof.
  intros Hatts Hcard Hbare. unfold _intercept_oauth_cards.
  destruct (negb (truthy_str cn) || _); [reflexivity|].
  unfold bind, lift. rewrite Hatts. simpl. rewrite Hcard. simpl.
  destruct Hbare as [->|(oauth_card & -> & [->|(resource & -> & ->)])];
    reflexivity.
Qed.

(** Past the gate, with an OAuth card that names a resource uri, every
    failure on the way is swallowed into "not handled" and stops the
    interception where it happened: no sender on the turn's activity (nothing
    is called); a token provider that raises or gives no usable token
    (nothing is posted); a reply that cannot be built or an incoming activity
    with no conversation (nothing is posted); a skill client that raises on
    the follow-up invoke. *)
Theorem intercept_swallows_failures
    (context : TurnContext) (activity : Activity) (cn : option string)
    (w : World) (atts others : list Attachment) (att : Attachment)
    (oauth_card : OAuthCard) (resource : TokenExchangeResource) :
  truthy_str cn = true ->
  adapter_is_extended_user_token_provider context = true ->
  attachments activity = Some atts ->
  List.filter is_oauth_card atts = att :: others ->
  content att = Some oauth_card ->
  token_exchange_resource oauth_card = Some resource ->
  truthy_str (resource_uri resource) = true ->
  (from_property (context_activity context) = None ->
   _intercept_oauth_cards context activity cn w = (Ok false, w))
  /\ (forall user,
        from_property (context_activity context) = Some user ->
        let exchange :=
          ExchangeToken cn (account_id user) (resource_uri resource) in
        let answer := env (option TokenResponse) (log w) exchange in
        (no_usable_token answer = true ->
         _intercept_oauth_cards context activity cn w
         = (Ok false,
            {| log := log w ++ [Ev exchange answer]; frame := frame w |}))
        /\ (forall token_response,
              answer = Ok (Some token_response) ->
              truthy_str (token token_response) = true ->
              ((exists e, create_reply activity = Raise e)
               \/ conversation activity = None ->
               _intercept_oauth_cards context activity cn w
               = (Ok false,
                  {| log := log w ++ [Ev exchange answer];
                     frame := frame w |}))
              /\ (forall reply incoming_conversation e,
                    create_reply activity = Ok reply ->
                    conversation activity = Some incoming_conversation ->
                    let post :=
                      skill_post (conversation_id incoming_conversation)
                        (token_exchange_invoke oauth_card resource
                           token_response reply) in
                    env InvokeResponse (log w ++ [Ev exchange answer])%list
                      post = Raise e ->
                    _intercept_oauth_cards context activity cn w
                    = (Ok false,
                       {| log := log w ++ [Ev exchange answer;
                                           Ev post (Raise e)];
                          frame := frame w |})))).
Proof.
  intros Hcn Had Hatts Hcard Hcontent Hres Huri.
  assert (Hrun : _intercept_oauth_cards context activity cn w
    = try_except
        (do user <-
           lift (attr (from_property (context_activity context)) "'id'");
         do result <-
           call (ExchangeToken cn (account_id user) (resource_uri resource));
         match result with
         | None => ret false
         | Some token_response =>
             if truthy_str (token token_response)
             then
               _send_token_exchange_invoke_to_skill activity
                 (resource_id resource) (card_connection_name oauth_card)
                 (token token_response)
             else ret false
         end)
        (ret false) w).
  { unfold _intercept_oauth_cards. rewrite Hcn, Had. simpl.
    unfold bind at 1 2, lift at 1 2. rewrite Hatts. simpl. rewrite Hcard.
    simpl. by rewrite Hcontent, Hres, Huri. }
  rewrite Hrun. clear Hrun. split.
  { intros Hnone. unfold try_except, bind, lift. by rewrite Hnone. }
  intros user Huser exchange answer.
  assert (Hanswer : env (option TokenResponse) (log w) exchange = answer)
    by reflexivity.
  clearbody answer. unfold exchange in Hanswer. split.
  - intros Hno. unfold try_except, bind, lift, call.
    rewrite Huser. simpl. rewrite Hanswer.
    destruct answer as [[token_response|]|e]; [|reflexivity..].
    unfold no_usable_token in Hno. apply negb_true_iff in Hno.
    by rewrite Hno.
  - intros token_response -> Htok. split.
    + intros Hfail. unfold try_except, bind at 1 2, lift at 1, call at 1.
      rewrite Huser. simpl. rewrite Hanswer, Htok.
      unfold _send_token_exchange_invoke_to_skill, bind, lift, call.
      destruct Hfail as [[e He]|Hconv]; [by rewrite He|].
      destruct (create_reply activity); simpl; [|done]. by rewrite Hconv.
    + intros reply incoming_conversation e Hreply Hconv post Hpost.
      unfold try_except, bind at 1 2, lift at 1, call at 1.
      rewrite Huser. simpl. rewrite Hanswer, Htok.
      unfold _send_token_exchange_invoke_to_skill, bind, lift, call.
      rewrite Hreply, Hconv. simpl.
      unfold post, skill_post, token_exchange_invoke, exchange in *.
      rewrite Hpost. simpl. by rewrite <- app_assoc.
Qed.


(** ** Further properties: a batch of expected replies, end to end *)

(** The whole run of an interception that reaches the follow-up invoke. *)
Lemma intercept_answered context activity cn w atts others att oauth_card
    resource user token_response reply incoming_conversation response :
  truthy_str cn = true ->
  adapter_is_extended_user_token_provider context = true ->
  attachments activity = Some atts ->
  List.filter is_oauth_card atts = att :: others ->
  content att = Some oauth_card ->
  token_exchange_resource oauth_card = Some resource ->
  truthy_str (resource_uri resource) = true ->
  from_property (context_activity context) = Some user ->
  env (option TokenResponse) (log w)
    (ExchangeToken cn (account_id user) (resource_uri resource))
    = Ok (Some token_response) ->
  truthy_str (token token_response) = true ->
  create_reply activity = Ok reply ->
  conversation activity = Some incoming_conversation ->
  env InvokeResponse
    (log w ++ [Ev (ExchangeToken cn (account_id user) (resource_uri resource))
                 (Ok (Some token_response))])%list
    (skill_post (conversation_id incoming_conversation)
       (token_exchange_invoke oauth_card resource token_response reply))
    = Ok response ->
  _intercept_oauth_cards context activity cn w
  = (Ok (status response =? 200),
     {| log := log w
               ++ [ Ev (ExchangeToken cn (account_id user)
                          (resource_uri resource))
                       (Ok (Some token_response));
                    Ev (skill_post (conversation_id incoming_conversation)
                          (token_exchange_invoke oauth_card resource
                             token_response reply))
                       (Ok response) ];
        frame := frame w |}).
Proof.
  intros Hcn Had Hatts Hcard Hcontent Hres Huri Huser Hex Htok Hreply Hconv
    Hpost.
  unfold _intercept_oauth_cards. rewrite Hcn, Had. simpl.
  unfold bind at 1 2, lift at 1 2. rewrite Hatts. simpl. rewrite Hcard.
  simpl. rewrite Hcontent, Hres, Huri.
  unfold try_except, bind at 1 2, lift at 1, call at 1.
  rewrite Huser. simpl. rewrite Hex. simpl. rewrite Htok.
  unfold _send_token_exchange_invoke_to_skill, bind, lift, call.
  rewrite Hreply, Hconv. simpl.
  unfold skill_post, token_exchange_invoke in *. rewrite Hpost. simpl.
  rewrite <- app_assoc. simpl. do 2 f_equal.
  destruct (status_div_100_is_2 (status response)) eqn:Hs.
  - apply status_div_100_is_2_spec in Hs. rewrite Hs. reflexivity.
  - symmetry. apply Z.eqb_neq. intros Heq.
    apply status_div_100_is_2_spec in Heq. congruence.
Qed.

(** In a batch, a reply with an OAuth card whose token exchange went through
    is kept from the user only when the skill answers the follow-up invoke
    with the status 200; with any other answer the invoke has been posted and
    the card is surfaced as well.  The rest of the batch is processed after
    it either way. *)
Theorem card_reply_surfaced_unless_200
    (context : TurnContext) (activity : Activity) (rest : list Activity)
    (eoc : option Activity) (cn : option string)
    (w : World) (atts others : list Attachment) (att : Attachment)
    (oauth_card : OAuthCard) (resource : TokenExchangeResource)
    (user : ChannelAccount) (token_response : TokenResponse)
    (reply : Activity) (incoming_conversation : ConversationAccount)
    (response : InvokeResponse) :
  let exchange :=
    ExchangeToken cn (account_id user) (resource_uri resource) in
  let post :=
    skill_post (conversation_id incoming_conversation)
      (token_exchange_invoke oauth_card resource token_response reply) in
  not_end_of_conversation activity = true ->
  truthy_str cn = true ->
  adapter_is_extended_user_token_provider context = true ->
  attachments activity = Some atts ->
  List.filter is_oauth_card atts = att :: others ->
  content att = Some oauth_card ->
  token_exchange_resource oauth_card = Some resource ->
  truthy_str (resource_uri resource) = true ->
  from_property (context_activity context) = Some user ->
  env (option TokenResponse) (log w) exchange = Ok (Some token_response) ->
  truthy_str (token token_response) = true ->
  create_reply activity = Ok reply ->
  conversation activity = Some incoming_conversation ->
  env InvokeResponse (log w ++ [Ev exchange (Ok (Some token_response))])%list
    post = Ok response ->
  accepts_activities ->
  process_replies context cn (activity :: rest) eoc w
  = process_replies context cn rest eoc
      {| log := log w
                ++ [Ev exchange (Ok (Some token_response));
                    Ev post (Ok response)]
                ++ (if status response =? 200 then []
                    else surfacing [activity]);
         frame := frame w |}.
Proof.
  intros exchange post Hnot Hcn Had Hatts Hcard Hcontent Hres Huri Huser Hex
    Htok Hreply Hconv Hpost Hsend.
  unfold not_end_of_conversation, is_end_of_conversation in Hnot.
  apply negb_true_iff in Hnot. simpl. rewrite Hnot. unfold bind at 1.
  rewrite (intercept_answered context activity cn w atts others att oauth_card
             resource user token_response reply incoming_conversation
             response Hcn Had Hatts Hcard Hcontent Hres Huri Huser Hex Htok
             Hreply Hconv Hpost).
  fold exchange. fold post.
  destruct (status response =? 200).
  - reflexivity.
  - unfold bind, call. simpl. rewrite Hsend. simpl.
    by rewrite <- !app_assoc.
Qed.

(** With the gate closed and a hosting context that takes every activity,
    the log of a batch is the surfacing of its replies that are no
    end-of-conversation. *)
Lemma process_replies_gate_closed_log context cn replies eoc w :
  truthy_str cn = false
  \/ adapter_is_extended_user_token_provider context = false ->
  accepts_activities ->
  process_replies context cn replies eoc w
  = (Ok (last_end_of_conversation replies eoc),
     {| log := log w
               ++ surfacing (List.filter not_end_of_conversation replies);
        frame := frame w |}).
Proof.
  intros Hgate Hsend.
  revert eoc w; induction replies as [|a rest IH]; intros eoc w; simpl.
  - by rewrite <- world_eta.
  - unfold not_end_of_conversation at 1, is_end_of_conversation at 1 2.
    destruct (opt_str_eqb (activity_type a) _); simpl; [apply IH|].
    unfold bind at 1. rewrite (intercept_gate_closed _ _ _ _ Hgate).
    unfold bind, call. rewrite Hsend. rewrite IH. simpl.
    by rewrite <- app_assoc.
Qed.

(** With no connection name (or an adapter that is no extended token
    provider), a 2xx answer to an expect-replies activity is processed to its
    end: each reply that is no end-of-conversation is surfaced, in the order
    of the batch, no reply is posted back or exchanged, and the last
    end-of-conversation of the batch is returned ([None] when the batch has
    none). *)
Theorem send_to_skill_gate_closed_batch
    (context : TurnContext) (activity : Activity) (cn : option string)
    (w : World) (cid : string) (response : InvokeResponse)
    (b : ResponseBody) (replies : list Activity) :
  let o := factory_options context activity in
  let post := skill_post cid activity in
  env string (log w) (CreateSkillConversationId o) = Ok cid ->
  env unit (log w ++ [Ev (CreateSkillConversationId o) (Ok cid)])%list
    (SaveChanges true) = Ok tt ->
  env InvokeResponse
    (log w ++ [Ev (CreateSkillConversationId o) (Ok cid);
               Ev (SaveChanges true) (Ok tt)])%list post = Ok response ->
  200 <= status response <= 299 ->
  delivery_mode activity = Some DeliveryModes.expect_replies ->
  body response = Some b -> body_truthy b = true ->
  body_activities b = Ok replies ->
  truthy_str cn = false
  \/ adapter_is_extended_user_token_provider context = false ->
  accepts_activities ->
  _send_to_skill context activity cn w
  = (Ok (last_end_of_conversation replies None),
     {| log := log w
               ++ [ Ev (CreateSkillConversationId o) (Ok cid);
                    Ev (SaveChanges true) (Ok tt);
                    Ev post (Ok response) ]
               ++ surfacing (List.filter not_end_of_conversation replies);
        frame := frame w |}).
Proof.
  intros o post H1 H2 H3 Hstatus Hdm Hbody Htruthy Hreplies Hgate Hsend.
  rewrite (send_to_skill_answered context activity cn w cid response H1 H2 H3).
  assert (Hs : status_outside_2xx (status response) = false).
  { unfold status_outside_2xx. lia. }
  rewrite Hs, Hdm, Hbody. simpl. rewrite Htruthy. simpl.
  unfold bind at 1, lift. rewrite Hreplies. simpl.
  rewrite (process_replies_gate_closed_log _ _ _ _ _ Hgate Hsend). simpl.
  by rewrite <- !app_assoc.
Qed.


(** ** Further properties: begin, end to end *)

(** A valid begin with an expect-replies activity and no connection name (or
    an adapter that is no extended token provider), answered by the skill
    with a 2xx status and a batch: the state is written, each reply that is
    no end-of-conversation is surfaced in order, and the dialog ends through
    [dialog_context.end_dialog] with the value of the last
    end-of-conversation of the batch; with no end-of-conversation in the
    batch the turn ends with [end_of_turn]. *)
Theorem begin_dialog_expect_replies
    (context : TurnContext) (options : option PyObject)
    (dialog_args : BeginSkillDialogOptions) (a : Activity) (w : World)
    (cid : string) (response : InvokeResponse) (b : ResponseBody)
    (replies : list Activity) :
  let trace := Ev (SendTraceActivity "SkillDialog.BeginDialogAsync()"
                     ("Using activity of type: " ++ py_str (activity_type a)))
                 (Ok tt) in
  let outbound := begin_activity context a in
  let o := factory_options context outbound in
  let post := skill_post cid outbound in
  let d := ([ trace;
              Ev (CreateSkillConversationId o) (Ok cid);
              Ev (SaveChanges true) (Ok tt);
              Ev post (Ok response) ]
            ++ surfacing (List.filter not_end_of_conversation replies))%list in
  let stored := <[_sso_connection_name_key :=
                    options_connection_name dialog_args]>
                  (<[_deliver_mode_state_key := delivery_mode a]> (frame w)) in
  _validate_begin_dialog_args options = Ok dialog_args ->
  options_activity dialog_args = Some a ->
  delivery_mode a = Some DeliveryModes.expect_replies ->
  truthy_str (options_connection_name dialog_args) = false
  \/ adapter_is_extended_user_token_provider context = false ->
  accepts_traces ->
  accepts_activities ->
  env string (log w ++ [trace])%list (CreateSkillConversationId o) = Ok cid ->
  env unit (log w ++ [trace; Ev (CreateSkillConversationId o) (Ok cid)])%list
    (SaveChanges true) = Ok tt ->
  env InvokeResponse
    (log w ++ [trace; Ev (CreateSkillConversationId o) (Ok cid);
               Ev (SaveChanges true) (Ok tt)])%list post = Ok response ->
  200 <= status response <= 299 ->
  body response = Some b -> body_truthy b = true ->
  body_activities b = Ok replies ->
  begin_dialog context options w
  = match last_end_of_conversation replies None with
    | None => (Ok end_of_turn, {| log := log w ++ d; frame := stored |})
    | Some eoc =>
        let finish := DialogContextEndDialog (activity_value eoc) in
        let answer := env DialogTurnResult (log w ++ d)%list finish in
        (answer,
         {| log := log w ++ d ++ [Ev finish answer]; frame := stored |})
    end.
Proof.
  intros trace outbound o post d stored Hv Ha Hdm Hgate Htrace Hsend H1 H2 H3
    Hstatus Hbody Htruthy Hreplies.
  unfold begin_dialog, bind at 1 2 3, lift, call at 1.
  rewrite Hv, Ha. simpl. rewrite Htrace. simpl.
  unfold bind at 1 2, set_state. simpl. unfold bind at 1.
  fold (begin_activity context a). fold outbound.
  set (w1 := {| log := _; frame := _ |}).
  rewrite (send_to_skill_answered context outbound
             (options_connection_name dialog_args) w1 cid response);
    [|exact H1
     |unfold w1; simpl; by rewrite <- app_assoc
     |unfold w1; simpl; by rewrite <- app_assoc].
  assert (Hs : status_outside_2xx (status response) = false).
  { unfold status_outside_2xx. lia. }
  assert (Hdm' : delivery_mode outbound = Some DeliveryModes.expect_replies)
    by exact Hdm.
  rewrite Hs, Hdm', Hbody. simpl. rewrite Htruthy. simpl.
  unfold bind at 1, lift. rewrite Hreplies. simpl.
  rewrite (process_replies_gate_closed_log _ _ _ _ _ Hgate Hsend).
  unfold w1, d. simpl. rewrite <- !app_assoc. simpl.
  destruct (last_end_of_conversation replies None) as [eoc|].
  - unfold call. simpl. rewrite <- !app_assoc. reflexivity.
  - reflexivity.
Qed.

(** A valid begin with an activity that does not ask for expected replies:
    at most the one post of the forwarded activity, nothing surfaced, no
    token exchange, no [dialog_context.end_dialog]; the turn ends with
    [end_of_turn] or with the error of the forwarding, and with cooperative
    collaborators it ends with [end_of_turn]. *)
Theorem begin_dialog_without_replies
    (context : TurnContext) (options : option PyObject)
    (dialog_args : BeginSkillDialogOptions) (a : Activity) (w : World) :
  _validate_begin_dialog_args options = Ok dialog_args ->
  options_activity dialog_args = Some a ->
  opt_str_eqb (delivery_mode a) DeliveryModes.expect_replies = false ->
  accepts_traces ->
  exists d,
    log (begin_dialog context options w).2 = (log w ++ d)%list
    /\ surfaced d = []
    /\ (forall e, e ∈ d ->
          is_exchange_token e = false
          /\ is_dialog_context_end_dialog e = false)
    /\ (posted d = [] \/ posted d = [begin_activity context a])
    /\ ((begin_dialog context options w).1 = Ok end_of_turn
          /\ posted d = [begin_activity context a]
        \/ exists e, (begin_dialog context options w).1 = Raise e)
    /\ (cooperative -> (begin_dialog context options w).1 = Ok end_of_turn).
Proof.
  intros Hv Ha Hdm Htrace.
  set (w1 := {| log := log w
                       ++ [Ev (SendTraceActivity
                                 "SkillDialog.BeginDialogAsync()"
                                 ("Using activity of type: "
                                  ++ py_str (activity_type a))) (Ok tt)];
                frame := <[_sso_connection_name_key :=
                             options_connection_name dialog_args]>
                           (<[_deliver_mode_state_key := delivery_mode a]>
                              (frame w)) |}).
  assert (Hbegin : begin_dialog context options w
    = bind (_send_to_skill context (begin_activity context a)
              (options_connection_name dialog_args))
        (fun eoc_activity =>
           match eoc_activity with
           | Some eoc => call (DialogContextEndDialog (activity_value eoc))
           | None => ret end_of_turn
           end) w1).
  { unfold begin_dialog, bind at 1 2 3, lift, call at 1.
    rewrite Hv, Ha. simpl. rewrite Htrace. reflexivity. }
  rewrite Hbegin. clear Hbegin. unfold bind.
  assert (Hdm' : opt_str_eqb (delivery_mode (begin_activity context a))
                   DeliveryModes.expect_replies = false) by exact Hdm.
  destruct (send_to_skill_without_replies context (begin_activity context a)
              (options_connection_name dialog_args) w1 Hdm')
    as (r & d & Hrun & Hs & Hx & Hp & Hr).
  pose proof (fun Hcoop =>
                send_to_skill_cooperative context (begin_activity context a)
                  (options_connection_name dialog_args) w1 Hcoop Hdm')
    as Hok.
  rewrite Hrun in Hok |- *. simpl in Hok.
  eexists (_ :: d).
  assert (Hlog : forall r0 : Res DialogTurnResult,
            log (r0, {| log := log w1 ++ d; frame := frame w1 |}).2
            = (log w ++ Ev (SendTraceActivity "SkillDialog.BeginDialogAsync()"
                              ("Using activity of type: "
                               ++ py_str (activity_type a))) (Ok tt) :: d)%list).
  { intros r0. unfold w1. simpl. by rewrite <- app_assoc. }
  destruct Hr as [[-> Hposted]|[e ->]]; simpl.
  - split; [apply (Hlog (Ok end_of_turn))|]. split; [exact Hs|]. split.
    { intros e He. apply elem_of_cons in He as [->|He]; [done|].
      apply (proj1 (Forall_forall _ _) Hx e) in He. tauto. }
    split; [exact Hp|].
    split; [left; split; [reflexivity|exact Hposted]|reflexivity].
  - split; [apply (Hlog (Raise e))|]. split; [exact Hs|]. split.
    { intros x Hx'. apply elem_of_cons in Hx' as [->|Hx']; [done|].
      apply (proj1 (Forall_forall _ _) Hx x) in Hx'. tauto. }
    split; [exact Hp|]. split; [right; by eexists|].
    intros Hcoop. specialize (Hok Hcoop). discriminate.
Qed.

(** ** Further properties: continue before begin *)

(** A [continue_dialog] turn on a frame whose state was never written by
    [begin_dialog] (or lost a key) raises a [KeyError] naming the missing
    key, after the trace and before anything is forwarded. *)
Theorem continue_dialog_before_begin (context : TurnContext) (w : World) :
  let trace := Ev (SendTraceActivity "SkillDialog.continue_dialog()"
                     ("ActivityType: "
                      ++ py_str (activity_type (context_activity context))))
                 (Ok tt) in
  opt_str_eqb (activity_type (context_activity context))
    ActivityTypes.end_of_conversation = false ->
  accepts_traces ->
  (frame w !! _deliver_mode_state_key = None ->
   continue_dialog context w
   = (Raise (KeyError _deliver_mode_state_key),
      {| log := log w ++ [trace]; frame := frame w |}))
  /\ (forall stored,
        frame w !! _deliver_mode_state_key = Some stored ->
        frame w !! _sso_connection_name_key = None ->
        continue_dialog context w
        = (Raise (KeyError _sso_connection_name_key),
           {| log := log w ++ [trace]; frame := frame w |})).
Proof.
  intros trace Hty Htrace. split.
  - intros Hnone. unfold continue_dialog, bind at 1, call at 1.
    rewrite Htrace. simpl. rewrite Hty.
    unfold bind, get_state. simpl. by rewrite Hnone.
  - intros stored Hdm Hnone. unfold continue_dialog, bind at 1, call at 1.
    rewrite Htrace. simpl. rewrite Hty.
    unfold bind at 1, get_state at 1. simpl. rewrite Hdm.
    unfold bind, get_state. simpl. by rewrite Hnone.
Qed.


(** ** Further properties: what no operation of the dialog does *)

Ltac emits_steps_by tac :=
  repeat (cbv zeta;
    match goal with
    | |- emits _ (ret _) => apply emits_ret
    | |- emits _ (raise _) => apply emits_raise
    | |- emits _ (lift _) => apply emits_lift
    | |- emits _ (call _) => apply emits_call; intros ?; tac
    | |- emits _ (get_state _) => apply emits_get_state
    | |- emits _ (bind _ _) => apply emits_bind; [| intros ?]
    | |- emits _ (try_except _ _) => apply emits_try_except
    | |- emits _ (if _ then _ else _) => apply emits_if
    | |- emits _ (match ?x with _ => _ end) => destruct x
    end).

Lemma interception_keeps_end_of_conversation e :
  interception_event e -> keeps_end_of_conversation e.
Proof.
  destruct e as [X c r]; destruct c; try exact (fun _ => I).
  unfold interception_event. simpl. discriminate.
Qed.

Lemma process_replies_keeps_end_of_conversation context cn replies eoc :
  emits keeps_end_of_conversation (process_replies context cn replies eoc).
Proof.
  revert eoc; induction replies as [|r rest IH]; intros eoc; simpl.
  - apply emits_ret.
  - destruct (opt_str_eqb (activity_type r) _) eqn:Hr; [apply IH|].
    apply emits_bind.
    { eapply emits_weaken; [apply interception_keeps_end_of_conversation|].
      apply emits_intercept_oauth_cards. }
    intros [|]; [apply IH|].
    apply emits_bind; [|intros _; apply IH].
    apply emits_call. intros ?. exact Hr.
Qed.

Lemma send_to_skill_keeps_end_of_conversation context activity cn :
  emits keeps_end_of_conversation (_send_to_skill context activity cn).
Proof.
  unfold _send_to_skill; emits_steps_by ltac:(exact I).
  apply process_replies_keeps_end_of_conversation.
Qed.

Lemma send_token_exchange_invoke_under cn incoming rid name tok :
  emits (exchanges_under cn)
    (_send_token_exchange_invoke_to_skill incoming rid name tok).
Proof.
  unfold _send_token_exchange_invoke_to_skill;
    emits_steps_by ltac:(exact I).
Qed.

Lemma intercept_under context activity cn :
  emits (exchanges_under cn) (_intercept_oauth_cards context activity cn).
Proof.
  unfold _intercept_oauth_cards;
    emits_steps_by ltac:(first [exact I | reflexivity]);
    apply send_token_exchange_invoke_under.
Qed.

Lemma process_replies_under context cn replies eoc :
  emits (exchanges_under cn) (process_replies context cn replies eoc).
Proof.
  revert eoc; induction replies as [|r rest IH]; intros eoc; simpl.
  - apply emits_ret.
  - destruct (opt_str_eqb (activity_type r) _); [apply IH|].
    apply emits_bind; [apply intercept_under|].
    intros [|]; [apply IH|].
    apply emits_bind; [|intros _; apply IH].
    apply emits_call. intros ?. exact I.
Qed.

Lemma send_to_skill_under context activity cn :
  emits (exchanges_under cn) (_send_to_skill context activity cn).
Proof.
  unfold _send_to_skill; emits_steps_by ltac:(exact I).
  apply process_replies_under.
Qed.

(** What [begin_dialog] logs satisfies every property of events that holds
    of traces, of [dialog_context.end_dialog] and of what the forwarding
    logs. *)
Lemma begin_dialog_emits (P : event -> Prop) context options w :
  (forall name label r, P (Ev (SendTraceActivity name label) r)) ->
  (forall value r, P (Ev (DialogContextEndDialog value) r)) ->
  (forall dialog_args activity,
     _validate_begin_dialog_args options = Ok dialog_args ->
     emits P (_send_to_skill context activity
                (options_connection_name dialog_args))) ->
  exists d,
    log (begin_dialog context options w).2 = (log w ++ d)%list /\ Forall P d.
Proof.
  intros Htrace Hend Hsend.
  unfold begin_dialog, bind at 1 2, lift.
  destruct (_validate_begin_dialog_args options) as [dialog_args|e] eqn:Hv.
  2: { exists []. simpl. by rewrite app_nil_r. }
  simpl. destruct (options_activity dialog_args) as [a|]; simpl.
  2: { exists []. simpl. by rewrite app_nil_r. }
  unfold bind at 1, call at 1.
  destruct (env unit (log w) _) as [[]|e0]; simpl.
  2: { eexists [_]. split; [reflexivity|]. by repeat constructor. }
  unfold bind at 1 2, set_state. simpl. unfold bind.
  match goal with
  | |- context [_send_to_skill ?c ?x ?n ?w1] =>
      destruct (Hsend dialog_args x eq_refl w1) as (d & Hd & HP);
      destruct (_send_to_skill c x n w1) as [[[eoc|]|e] w2];
      simpl in Hd; subst w2
  end; unfold call, ret; simpl; rewrite <- ?app_assoc; simpl;
    eexists; (split; [reflexivity|]);
    repeat first [apply Forall_cons; split | apply Forall_app; split
                 | apply Forall_nil]; auto.
Qed.

Lemma keeps_end_of_conversation_surfaced d :
  Forall keeps_end_of_conversation d ->
  forall a, a ∈ surfaced d -> is_end_of_conversation a = false.
Proof.
  induction 1 as [|e d He _ IH]; intros a Ha.
  - by apply elem_of_nil in Ha.
  - simpl in Ha. apply elem_of_app in Ha as [Ha|Ha]; [|by apply IH].
    destruct e as [X c r]; destruct c; simpl in *;
      try (by apply elem_of_nil in Ha).
    by apply list_elem_of_singleton in Ha as ->.
Qed.

(** Whatever the collaborators answer, no operation of the dialog surfaces
    an end-of-conversation activity to the user. *)
Theorem end_of_conversation_never_surfaced (context : TurnContext) :
  (forall options w,
     exists d,
       log (begin_dialog context options w).2 = (log w ++ d)%list
       /\ forall a, a ∈ surfaced d -> is_end_of_conversation a = false)
  /\ (forall w,
        exists d,
          log (continue_dialog context w).2 = (log w ++ d)%list
          /\ forall a, a ∈ surfaced d -> is_end_of_conversation a = false)
  /\ (forall reason w,
        exists d,
          log (end_dialog context reason w).2 = (log w ++ d)%list
          /\ forall a, a ∈ surfaced d -> is_end_of_conversation a = false)
  /\ (forall w,
        exists d,
          log (resume_dialog context w).2 = (log w ++ d)%list
          /\ forall a, a ∈ surfaced d -> is_end_of_conversation a = false).
Proof.
  assert (Hemits : forall A (c : M A) w,
            emits keeps_end_of_conversation c ->
            exists d,
              log (c w).2 = (log w ++ d)%list
              /\ forall a, a ∈ surfaced d -> is_end_of_conversation a = false).
  { intros A c w Hc. destruct (Hc w) as (d & Hd & HP). exists d.
    rewrite Hd. split; [reflexivity|].
    by apply keeps_end_of_conversation_surfaced. }
  repeat split.
  - intros options w.
    destruct (begin_dialog_emits keeps_end_of_conversation context options w)
      as (d & Hd & HP); try (intros; exact I).
    { intros. apply send_to_skill_keeps_end_of_conversation. }
    exists d. split; [exact Hd|].
    by apply keeps_end_of_conversation_surfaced.
  - intros w. apply Hemits. unfold continue_dialog.
    emits_steps_by ltac:(exact I);
      apply send_to_skill_keeps_end_of_conversation.
  - intros reason w. apply Hemits. unfold end_dialog.
    emits_steps_by ltac:(exact I);
      apply send_to_skill_keeps_end_of_conversation.
  - intros w. apply Hemits. unfold resume_dialog, reprompt_dialog.
    emits_steps_by ltac:(exact I);
      apply send_to_skill_keeps_end_of_conversation.
Qed.

(** A [continue_dialog] turn asks the token provider under the connection
    name stored in the frame's state only. *)
Lemma continue_dialog_under context w cn :
  frame w !! _sso_connection_name_key = Some cn ->
  exists d,
    (continue_dialog context w).2 = {| log := log w ++ d; frame := frame w |}
    /\ Forall (exchanges_under cn) d.
Proof.
  intros Hcn. unfold continue_dialog, bind at 1, call at 1.
  destruct (env unit (log w) _) as [[]|e0]; simpl.
  2: { eexists [_]. split; [reflexivity|]. by repeat constructor. }
  destruct (opt_str_eqb _ _).
  { unfold bind, call. simpl.
    destruct (env unit _ _) as [[]|e1]; simpl; rewrite <- ?app_assoc; simpl;
      eexists; (split; [reflexivity|]); by repeat constructor. }
  unfold bind at 1, get_state at 1. simpl.
  destruct (frame w !! _deliver_mode_state_key) as [stored|].
  2: { eexists [_]. split; [reflexivity|]. by repeat constructor. }
  unfold bind at 1, get_state at 1. simpl. rewrite Hcn.
  set (w1 := {| log := _; frame := frame w |}).
  destruct (send_to_skill_under context
              (set_delivery_mode stored (context_activity context)) cn w1)
    as (d & Hd & HP).
  unfold bind.
  destruct (_send_to_skill _ _ _ w1) as [[[eoc|]|e] w2]; simpl in Hd; subst w2;
    unfold call, ret; simpl; rewrite <- ?app_assoc; simpl;
    eexists; (split; [reflexivity|]);
    repeat first [apply Forall_cons; split | apply Forall_app; split
                 | apply Forall_nil]; auto; exact I.
Qed.

Lemma continue_turns_under contexts w cn :
  frame w !! _sso_connection_name_key = Some cn ->
  exists d,
    continue_turns contexts w = {| log := log w ++ d; frame := frame w |}
    /\ Forall (exchanges_under cn) d.
Proof.
  revert w; induction contexts as [|c cs IH]; intros w Hcn; simpl.
  - exists []. split; [apply world_eta|constructor].
  - destruct (continue_dialog_under c w cn Hcn) as (d & Hd & HP). rewrite Hd.
    destruct (IH {| log := log w ++ d; frame := frame w |} Hcn)
      as (d' & Hd' & HP').
    exists (d ++ d')%list. rewrite Hd'. simpl. rewrite app_assoc.
    split; [reflexivity|]. by apply Forall_app.
Qed.

(** The connection name of the begin options is the only one the token
    provider is ever asked under: in the begin itself and in any number of
    [continue_dialog] turns after it, whatever the connection names of the
    cards in the replies. *)
Theorem token_exchange_under_begin_connection_name
    (context : TurnContext) (options : option PyObject)
    (dialog_args : BeginSkillDialogOptions) (w : World) :
  _validate_begin_dialog_args options = Ok dialog_args ->
  accepts_traces ->
  let cn := options_connection_name dialog_args in
  let w1 := (begin_dialog context options w).2 in
  (exists d0,
     log w1 = (log w ++ d0)%list /\ Forall (exchanges_under cn) d0)
  /\ forall contexts : list TurnContext,
       exists d,
         continue_turns contexts w1
           = {| log := log w1 ++ d; frame := frame w1 |}
         /\ Forall (exchanges_under cn) d.
Proof.
  intros Hv Htrace cn w1. split.
  - apply begin_dialog_emits; try (intros; exact I).
    intros dialog_args' activity Hv'. rewrite Hv in Hv'.
    injection Hv' as <-. apply send_to_skill_under.
  - intros contexts. apply continue_turns_under.
    destruct (begin_dialog_frame context options dialog_args w Hv Htrace)
      as (a & d0 & Ha & Hw1).
    unfold w1. rewrite Hw1. simpl. apply lookup_insert_eq.
Qed.

End SkillDialog.

(** ** The dialog on the fixtures *)

Lemma fixtures_cooperative first follow_up exchange :
  200 <= status first <= 299 -> 200 <= follow_up <= 299 ->
  cooperative (Fixtures.collaborators first follow_up exchange).
Proof.
  intros Hfirst Hfollow. repeat split; try (by eexists).
  intros h b1 b2 u1 u2 cid a. simpl.
  destruct (Fixtures.is_invoke a); eexists; split; try reflexivity; assumption.
Qed.

Lemma intercept_handled_only_on_200_witness :
  (_intercept_oauth_cards
     (Fixtures.collaborators Fixtures.ok_empty 201 Fixtures.token_ok)
     Fixtures.create_reply Fixtures.options
     (Fixtures.context_of Fixtures.hello true)
     Fixtures.card_reply (Some "conn") Fixtures.start).1
  = Ok false
  /\ status_outside_2xx 201 = false.
Proof.
  destruct (intercept_handled_only_on_200
              (Fixtures.collaborators Fixtures.ok_empty 201 Fixtures.token_ok)
              Fixtures.create_reply Fixtures.options
              (Fixtures.context_of Fixtures.hello true)
              Fixtures.card_reply (Some "conn") Fixtures.start
              _ [] _ Fixtures.card _ Fixtures.user _ _
              Fixtures.root_conversation {| status := 201; body := None |}
              eq_refl eq_refl eq_refl eq_refl eq_refl eq_refl eq_refl eq_refl
              eq_refl eq_refl eq_refl eq_refl eq_refl)
    as (_ & Hrange).
  apply Hrange. simpl. lia.
Defined.

Lemma intercept_without_card_raises_witness :
  _intercept_oauth_cards
    (Fixtures.collaborators Fixtures.ok_empty 200 Fixtures.token_ok)
    Fixtures.create_reply Fixtures.options
    (Fixtures.context_of Fixtures.hello true)
    Fixtures.plain_reply (Some "conn") Fixtures.start
  = (Raise (RuntimeError "coroutine raised StopIteration"), Fixtures.start).
Proof.
  exact (proj1 (intercept_without_card_raises
                  (Fixtures.collaborators Fixtures.ok_empty 200
                     Fixtures.token_ok)
                  Fixtures.create_reply Fixtures.options
                  (Fixtures.context_of Fixtures.hello true)
                  Fixtures.plain_reply (Some "conn") Fixtures.start
                  eq_refl eq_refl)
               [] eq_refl eq_refl).
Defined.

Lemma batch_reply_without_card_aborts_witness :
  let outcome :=
    _send_to_skill
      (Fixtures.collaborators
         {| status := 200;
            body := Fixtures.replies_body [Fixtures.plain_reply] |}
         200 Fixtures.token_ok)
      Fixtures.create_reply Fixtures.options
      (Fixtures.context_of Fixtures.hello true)
      (set_delivery_mode (Some DeliveryModes.expect_replies) Fixtures.hello)
      (Some "conn") Fixtures.start in
  outcome.1 = Raise (RuntimeError "coroutine raised StopIteration")
  /\ surfaced (log outcome.2) = []
  /\ not_end_of_conversation Fixtures.plain_reply = true.
Proof.
  intros outcome.
  destruct (batch_reply_without_card_aborts
              (Fixtures.collaborators
                 {| status := 200;
                    body := Fixtures.replies_body [Fixtures.plain_reply] |}
                 200 Fixtures.token_ok)
              Fixtures.create_reply Fixtures.options
              (Fixtures.context_of Fixtures.hello true)
              (set_delivery_mode (Some DeliveryModes.expect_replies)
                 Fixtures.hello)
              (Some "conn") Fixtures.start "skill-conversation"
              {| status := 200;
                 body := Fixtures.replies_body [Fixtures.plain_reply] |}
              {| body_repr := "{...}"; body_truthy := true;
                 body_activities := Ok [Fixtures.plain_reply] |}
              Fixtures.plain_reply [] [])
    as (Hrun & Hsurfaced); try (vm_compute; reflexivity).
  { simpl. lia. }
  unfold outcome. rewrite Hrun. simpl. by repeat split.
Defined.

Lemma session_state_fixed_at_begin_witness :
  let env := Fixtures.collaborators Fixtures.ok_empty 200 Fixtures.token_ok in
  let w1 :=
    (begin_dialog env Fixtures.create_reply Fixtures.options
       (Fixtures.context_of Fixtures.hello true)
       (Fixtures.begin_options Fixtures.hello
          (Some DeliveryModes.expect_replies) (Some "conn"))
       Fixtures.start).2 in
  frame w1 !! _deliver_mode_state_key
    = Some (Some DeliveryModes.expect_replies)
  /\ frame w1 !! _sso_connection_name_key = Some (Some "conn")
  /\ forall contexts : list TurnContext,
      exists d,
        continue_turns env Fixtures.create_reply Fixtures.options contexts w1
          = {| log := log w1 ++ d; frame := frame w1 |}
        /\ (forall a, a ∈ handed_to_skill d ->
            Some (delivery_mode a) = Some (Some DeliveryModes.expect_replies)).
Proof.
  intros env w1.
  exact (session_state_fixed_at_begin env Fixtures.create_reply
           Fixtures.options (Fixtures.context_of Fixtures.hello true)
           (Fixtures.begin_options Fixtures.hello
              (Some DeliveryModes.expect_replies) (Some "conn"))
           {| options_activity :=
                Some (set_delivery_mode (Some DeliveryModes.expect_replies)
                        Fixtures.hello);
              options_connection_name := Some "conn" |}
           Fixtures.start eq_refl (fun _ _ _ => eq_refl)).
Defined.

Lemma token_exchange_invoke_wire_shape_witness :
  exists invoke,
    posted
      (log (_intercept_oauth_cards
              (Fixtures.collaborators Fixtures.ok_empty 200 Fixtures.token_ok)
              Fixtures.create_reply Fixtures.options
              (Fixtures.context_of Fixtures.hello true)
              Fixtures.card_reply (Some "conn") Fixtures.start).2)
      = [invoke]
    /\ activity_type invoke = Some "invoke"
    /\ activity_name invoke = Some "signin/tokenExchange"
    /\ activity_value invoke
       = VTokenExchangeInvokeRequest
           {| request_id := Some "resource-1";
              request_token := Some "exchanged-token";
              request_connection_name := Some "card-connection" |}.
Proof.
  destruct (token_exchange_invoke_wire_shape
              (Fixtures.collaborators Fixtures.ok_empty 200 Fixtures.token_ok)
              Fixtures.create_reply Fixtures.options
              (Fixtures.context_of Fixtures.hello true)
              Fixtures.card_reply (Some "conn") Fixtures.start
              _ [] _ Fixtures.card _ Fixtures.user _ _
              Fixtures.root_conversation
              eq_refl eq_refl eq_refl eq_refl eq_refl eq_refl eq_refl eq_refl
              eq_refl eq_refl eq_refl eq_refl)
    as (invoke & r & Hw & Hposted & _ & Htype & Hname & Hvalue).
  exists invoke. rewrite Hw. simpl. repeat split; assumption.
Defined.

Lemma status_outside_2xx_is_fatal_witness :
  exists msg,
    (_send_to_skill
       (Fixtures.collaborators {| status := 300; body := None |} 200
          Fixtures.token_ok)
       Fixtures.create_reply Fixtures.options
       (Fixtures.context_of Fixtures.hello true) Fixtures.hello None
       Fixtures.start).1
    = Raise (Exception msg)
    /\ mentions msg "300" /\ mentions msg "echo"
    /\ mentions msg "http://skill/api/messages" /\ mentions msg "None".
Proof.
  destruct (status_outside_2xx_is_fatal
              (Fixtures.collaborators {| status := 300; body := None |} 200
                 Fixtures.token_ok)
              Fixtures.create_reply Fixtures.options
              (Fixtures.context_of Fixtures.hello true) Fixtures.hello None
              Fixtures.start "skill-conversation"
              {| status := 300; body := None |} eq_refl eq_refl eq_refl)
    as (Hout & _).
  destruct (Hout (or_intror eq_refl))
    as (msg & Hrun & _ & Hid & Hep & Hst & Hbody).
  exists msg. rewrite Hrun. repeat split; assumption.
Defined.

Lemma begin_dialog_rejects_invalid_options_witness :
  exists msg,
    begin_dialog
      (Fixtures.collaborators Fixtures.ok_empty 200 Fixtures.token_ok)
      Fixtures.create_reply Fixtures.options
      (Fixtures.context_of Fixtures.hello true) None Fixtures.start
    = (Raise (TypeError msg), Fixtures.start).
Proof.
  exact (begin_dialog_rejects_invalid_options
           (Fixtures.collaborators Fixtures.ok_empty 200 Fixtures.token_ok)
           Fixtures.create_reply Fixtures.options
           (Fixtures.context_of Fixtures.hello true) None Fixtures.start
           (or_introl eq_refl)).
Defined.

Lemma continue_dialog_end_of_conversation_witness :
  exists d,
    (continue_dialog
       (Fixtures.collaborators Fixtures.ok_empty 200 Fixtures.token_ok)
       Fixtures.create_reply Fixtures.options
       (Fixtures.context_of (Fixtures.eoc_reply "done") true)
       Fixtures.start).2
    = {| log := d; frame := ∅ |}
    /\ posted d = [] /\ handed_to_skill d = []
    /\ (forall e, e ∈ d -> is_save_changes e = false).
Proof.
  destruct (continue_dialog_end_of_conversation
              (Fixtures.collaborators Fixtures.ok_empty 200 Fixtures.token_ok)
              Fixtures.create_reply Fixtures.options
              (Fixtures.context_of (Fixtures.eoc_reply "done") true)
              Fixtures.start eq_refl)
    as (d & Hw & Hposted & Hhanded & Hsave & _).
  exists d. rewrite Hw. repeat split; assumption.
Defined.

Lemma save_changes_before_post_activity_witness :
  exists d,
    (_send_to_skill
       (Fixtures.collaborators Fixtures.ok_empty 200 Fixtures.token_ok)
       Fixtures.create_reply Fixtures.options
       (Fixtures.context_of Fixtures.hello true) Fixtures.hello None
       Fixtures.start).2
    = {| log := d; frame := ∅ |}
    /\ head (posted d) = Some Fixtures.hello
    /\ (forall d1 e d2,
          d = (d1 ++ e :: d2)%list -> is_post_activity e = true ->
          Ev (SaveChanges true) (Ok tt) ∈ d1).
Proof.
  destruct (save_changes_before_post_activity
              (Fixtures.collaborators Fixtures.ok_empty 200 Fixtures.token_ok)
              Fixtures.create_reply Fixtures.options
              (Fixtures.context_of Fixtures.hello true) Fixtures.hello None
              Fixtures.start)
    as (d & Hw & Hbefore & Hfirst).
  exists d. split; [exact Hw|]. split; [|exact Hbefore].
  assert (Hd : d = log (_send_to_skill
                          (Fixtures.collaborators Fixtures.ok_empty 200
                             Fixtures.token_ok)
                          Fixtures.create_reply Fixtures.options
                          (Fixtures.context_of Fixtures.hello true)
                          Fixtures.hello None Fixtures.start).2).
  { rewrite Hw. reflexivity. }
  exact (Hfirst _ _ _ Hd).
Defined.

Lemma end_dialog_sends_one_end_of_conversation_witness :
  exists d1 rb,
    log (end_dialog
           (Fixtures.collaborators Fixtures.ok_empty 200 Fixtures.token_ok)
           Fixtures.create_reply Fixtures.options
           (Fixtures.context_of Fixtures.hello true) CancelCalled
           Fixtures.start).2
    = (d1 ++ [Ev (BaseEndDialog CancelCalled) rb])%list
    /\ posted d1
       = [cancellation_activity (Fixtures.context_of Fixtures.hello true)].
Proof.
  destruct (end_dialog_sends_one_end_of_conversation
              (Fixtures.collaborators Fixtures.ok_empty 200 Fixtures.token_ok)
              Fixtures.create_reply Fixtures.options
              (Fixtures.context_of Fixtures.hello true) CancelCalled
              Fixtures.start)
    as (d & Hw & Hcancel & _).
  destruct (Hcancel (or_introl eq_refl)) as (Hreach & _).
  assert (Hcoop : cooperative
            (Fixtures.collaborators Fixtures.ok_empty 200 Fixtures.token_ok)).
  { apply fixtures_cooperative; simpl; lia. }
  destruct (Hreach (or_introl Hcoop)) as (d1 & rb & Hd & Hposted).
  exists d1, rb. rewrite Hw, Hd. split; [reflexivity|exact Hposted].
Defined.


(** ** The further properties on the fixtures *)

Lemma send_to_skill_propagates_failures_witness :
  let outcome :=
    _send_to_skill
      (Scenarios.refusing Scenarios.the_id_factory
         (Fixtures.collaborators Fixtures.ok_empty 200 Fixtures.token_ok))
      Fixtures.create_reply Fixtures.options
      (Fixtures.context_of Fixtures.hello true) Fixtures.hello None
      Fixtures.start in
  outcome.1 = Raise (CollaboratorError "refused")
  /\ posted (log outcome.2) = []
  /\ (forall e, e ∈ log outcome.2 -> is_save_changes e = false).
Proof.
  intros outcome.
  destruct (send_to_skill_propagates_failures
              (Scenarios.refusing Scenarios.the_id_factory
                 (Fixtures.collaborators Fixtures.ok_empty 200
                    Fixtures.token_ok))
              Fixtures.create_reply Fixtures.options
              (Fixtures.context_of Fixtures.hello true) Fixtures.hello None
              Fixtures.start)
    as (Hfactory & _).
  unfold outcome. rewrite (Hfactory (CollaboratorError "refused") eq_refl).
  simpl. repeat split. intros e He.
  apply list_elem_of_singleton in He as ->. reflexivity.
Defined.

Lemma end_dialog_rejected_signal_skips_teardown_witness :
  let outcome :=
    end_dialog
      (Fixtures.collaborators {| status := 500; body := None |} 200
         Fixtures.token_ok)
      Fixtures.create_reply Fixtures.options
      (Fixtures.context_of Fixtures.hello true) CancelCalled
      Fixtures.start in
  (exists msg, outcome.1 = Raise (Exception msg))
  /\ length (log outcome.2) = 4%nat.
Proof.
  intros outcome.
  destruct (end_dialog_rejected_signal_skips_teardown
              (Fixtures.collaborators {| status := 500; body := None |} 200
                 Fixtures.token_ok)
              Fixtures.create_reply Fixtures.options
              (Fixtures.context_of Fixtures.hello true) CancelCalled
              Fixtures.start "skill-conversation"
              {| status := 500; body := None |})
    as (Hrun & _);
    [by left | intros ???; reflexivity | reflexivity | reflexivity
     | reflexivity | right; reflexivity |].
  unfold outcome. rewrite Hrun. split; [by eexists | reflexivity].
Defined.

Lemma intercept_card_without_uri_witness :
  _intercept_oauth_cards
    (Fixtures.collaborators Fixtures.ok_empty 200 Fixtures.token_ok)
    Fixtures.create_reply Fixtures.options
    (Fixtures.context_of Fixtures.hello true)
    Scenarios.bare_card_reply (Some "conn") Fixtures.start
  = (Ok false, Fixtures.start).
Proof.
  eapply (intercept_card_without_uri
            (Fixtures.collaborators Fixtures.ok_empty 200 Fixtures.token_ok)
            Fixtures.create_reply Fixtures.options
            (Fixtures.context_of Fixtures.hello true)
            Scenarios.bare_card_reply (Some "conn") Fixtures.start);
    [reflexivity | reflexivity |].
  right. eexists. split; [reflexivity|]. by left.
Defined.

Lemma intercept_swallows_failures_witness :
  let outcome :=
    _intercept_oauth_cards
      (Scenarios.refusing Scenarios.the_token_provider
         (Fixtures.collaborators Fixtures.ok_empty 200 Fixtures.token_ok))
      Fixtures.create_reply Fixtures.options
      (Fixtures.context_of Fixtures.hello true)
      Fixtures.card_reply (Some "conn") Fixtures.start in
  outcome.1 = Ok false /\ posted (log outcome.2) = []
  /\ length (log outcome.2) = 1%nat.
Proof.
  intros outcome.
  destruct (intercept_swallows_failures
              (Scenarios.refusing Scenarios.the_token_provider
                 (Fixtures.collaborators Fixtures.ok_empty 200
                    Fixtures.token_ok))
              Fixtures.create_reply Fixtures.options
              (Fixtures.context_of Fixtures.hello true)
              Fixtures.card_reply (Some "conn") Fixtures.start
              _ [] _ Fixtures.card _
              eq_refl eq_refl eq_refl eq_refl eq_refl eq_refl eq_refl)
    as (_ & Hprovider).
  destruct (Hprovider Fixtures.user eq_refl) as (Hno & _).
  unfold outcome. rewrite (Hno eq_refl). by repeat split.
Defined.


Lemma card_reply_surfaced_unless_200_witness :
  let outcome :=
    process_replies
      (Fixtures.collaborators Fixtures.ok_empty 201 Fixtures.token_ok)
      Fixtures.create_reply Fixtures.options
      (Fixtures.context_of Fixtures.hello true) (Some "conn")
      [Fixtures.card_reply] None Fixtures.start in
  outcome.1 = Ok None
  /\ surfaced (log outcome.2) = [Fixtures.card_reply]
  /\ length (posted (log outcome.2)) = 1%nat.
Proof.
  intros outcome. unfold outcome.
  rewrite (card_reply_surfaced_unless_200
             (Fixtures.collaborators Fixtures.ok_empty 201 Fixtures.token_ok)
             Fixtures.create_reply Fixtures.options
             (Fixtures.context_of Fixtures.hello true)
             Fixtures.card_reply [] None (Some "conn") Fixtures.start
             _ [] _ Fixtures.card _ Fixtures.user _ _
             Fixtures.root_conversation {| status := 201; body := None |}
             eq_refl eq_refl eq_refl eq_refl eq_refl eq_refl eq_refl eq_refl
             eq_refl eq_refl eq_refl eq_refl eq_refl eq_refl
             (fun _ _ => eq_refl)).
  by repeat split.
Defined.

Lemma process_replies_captures_witness :
  Some (Fixtures.eoc_reply "second")
  = last_end_of_conversation
      [Fixtures.eoc_reply "first"; Fixtures.plain_reply;
       Fixtures.eoc_reply "second"] None.
Proof.
  apply (process_replies_captures
           (Fixtures.collaborators Fixtures.ok_empty 200 Fixtures.token_ok)
           Fixtures.create_reply Fixtures.options
           (Fixtures.context_of Fixtures.hello true) None
           [Fixtures.eoc_reply "first"; Fixtures.plain_reply;
            Fixtures.eoc_reply "second"] None Fixtures.start).
  reflexivity.
Defined.

Lemma send_to_skill_gate_closed_batch_witness :
  let outcome :=
    _send_to_skill
      (Fixtures.collaborators
         {| status := 200;
            body := Fixtures.replies_body
                      [Fixtures.plain_reply; Fixtures.eoc_reply "done"] |}
         200 Fixtures.token_ok)
      Fixtures.create_reply Fixtures.options
      (Fixtures.context_of Fixtures.hello true)
      (set_delivery_mode (Some DeliveryModes.expect_replies) Fixtures.hello)
      None Fixtures.start in
  outcome.1 = Ok (Some (Fixtures.eoc_reply "done"))
  /\ surfaced (log outcome.2) = [Fixtures.plain_reply].
Proof.
  intros outcome. unfold outcome.
  rewrite (send_to_skill_gate_closed_batch
             (Fixtures.collaborators
                {| status := 200;
                   body := Fixtures.replies_body
                             [Fixtures.plain_reply;
                              Fixtures.eoc_reply "done"] |}
                200 Fixtures.token_ok)
             Fixtures.create_reply Fixtures.options
             (Fixtures.context_of Fixtures.hello true)
             (set_delivery_mode (Some DeliveryModes.expect_replies)
                Fixtures.hello)
             None Fixtures.start "skill-conversation"
             {| status := 200;
                body := Fixtures.replies_body
                          [Fixtures.plain_reply; Fixtures.eoc_reply "done"] |}
             {| body_repr := "{...}"; body_truthy := true;
                body_activities :=
                  Ok [Fixtures.plain_reply; Fixtures.eoc_reply "done"] |}
             [Fixtures.plain_reply; Fixtures.eoc_reply "done"]);
    try reflexivity.
  - by split.
  - simpl. lia.
  - by left.
  - intros ??. reflexivity.
Defined.


Lemma begin_dialog_expect_replies_witness :
  let outcome :=
    begin_dialog
      (Fixtures.collaborators
         {| status := 200;
            body := Fixtures.replies_body
                      [Fixtures.plain_reply; Fixtures.eoc_reply "done"] |}
         200 Fixtures.token_ok)
      Fixtures.create_reply Fixtures.options
      (Fixtures.context_of Fixtures.hello true)
      (Fixtures.begin_options Fixtures.hello
         (Some DeliveryModes.expect_replies) None)
      Fixtures.start in
  outcome.1 = Ok {| turn_status := Complete; turn_result := VStr "done" |}
  /\ surfaced (log outcome.2) = [Fixtures.plain_reply].
Proof.
  intros outcome. unfold outcome.
  rewrite (begin_dialog_expect_replies
             (Fixtures.collaborators
                {| status := 200;
                   body := Fixtures.replies_body
                             [Fixtures.plain_reply;
                              Fixtures.eoc_reply "done"] |}
                200 Fixtures.token_ok)
             Fixtures.create_reply Fixtures.options
             (Fixtures.context_of Fixtures.hello true)
             (Fixtures.begin_options Fixtures.hello
                (Some DeliveryModes.expect_replies) None)
             {| options_activity :=
                  Some (set_delivery_mode (Some DeliveryModes.expect_replies)
                          Fixtures.hello);
                options_connection_name := None |}
             (set_delivery_mode (Some DeliveryModes.expect_replies)
                Fixtures.hello)
             Fixtures.start "skill-conversation"
             {| status := 200;
                body := Fixtures.replies_body
                          [Fixtures.plain_reply; Fixtures.eoc_reply "done"] |}
             {| body_repr := "{...}"; body_truthy := true;
                body_activities :=
                  Ok [Fixtures.plain_reply; Fixtures.eoc_reply "done"] |}
             [Fixtures.plain_reply; Fixtures.eoc_reply "done"]);
    try reflexivity.
  - by split.
  - by left.
  - intros ???. reflexivity.
  - intros ??. reflexivity.
  - simpl. lia.
Defined.

Lemma begin_dialog_without_replies_witness :
  (begin_dialog
     (Fixtures.collaborators Fixtures.ok_empty 200 Fixtures.token_ok)
     Fixtures.create_reply Fixtures.options
     (Fixtures.context_of Fixtures.hello true)
     (Fixtures.begin_options Fixtures.hello (Some DeliveryModes.normal)
        (Some "conn"))
     Fixtures.start).1
  = Ok end_of_turn.
Proof.
  destruct (begin_dialog_without_replies
              (Fixtures.collaborators Fixtures.ok_empty 200 Fixtures.token_ok)
              Fixtures.create_reply Fixtures.options
              (Fixtures.context_of Fixtures.hello true)
              (Fixtures.begin_options Fixtures.hello
                 (Some DeliveryModes.normal) (Some "conn"))
              {| options_activity :=
                   Some (set_delivery_mode (Some DeliveryModes.normal)
                           Fixtures.hello);
                 options_connection_name := Some "conn" |}
              (set_delivery_mode (Some DeliveryModes.normal) Fixtures.hello)
              Fixtures.start)
    as (d & _ & _ & _ & _ & _ & Hcoop);
    [reflexivity | reflexivity | reflexivity | intros ???; reflexivity |].
  apply Hcoop. apply fixtures_cooperative; simpl; lia.
Defined.

Lemma continue_dialog_before_begin_witness :
  (continue_dialog
     (Fixtures.collaborators Fixtures.ok_empty 200 Fixtures.token_ok)
     Fixtures.create_reply Fixtures.options
     (Fixtures.context_of Fixtures.hello true) Fixtures.start).1
  = Raise (KeyError "deliverymode").
Proof.
  destruct (continue_dialog_before_begin
              (Fixtures.collaborators Fixtures.ok_empty 200 Fixtures.token_ok)
              Fixtures.create_reply Fixtures.options
              (Fixtures.context_of Fixtures.hello true) Fixtures.start)
    as (Hmissing & _); [reflexivity | intros ???; reflexivity |].
  by rewrite (Hmissing eq_refl).
Defined.

Lemma token_exchange_under_begin_connection_name_witness :
  let env := Fixtures.collaborators
               {| status := 200;
                  body := Fixtures.replies_body [Fixtures.card_reply] |}
               200 Fixtures.token_ok in
  let w1 :=
    (begin_dialog env Fixtures.create_reply Fixtures.options
       (Fixtures.context_of Fixtures.hello true)
       (Fixtures.begin_options Fixtures.hello
          (Some DeliveryModes.expect_replies) (Some "conn"))
       Fixtures.start).2 in
  (exists d0, log w1 = d0 /\ Forall (exchanges_under (Some "conn")) d0)
  /\ forall contexts : list TurnContext,
       exists d,
         continue_turns env Fixtures.create_reply Fixtures.options contexts w1
           = {| log := log w1 ++ d; frame := frame w1 |}
         /\ Forall (exchanges_under (Some "conn")) d.
Proof.
  intros env w1.
  exact (token_exchange_under_begin_connection_name env Fixtures.create_reply
           Fixtures.options (Fixtures.context_of Fixtures.hello true)
           (Fixtures.begin_options Fixtures.hello
              (Some DeliveryModes.expect_replies) (Some "conn"))
           {| options_activity :=
                Some (set_delivery_mode (Some DeliveryModes.expect_replies)
                        Fixtures.hello);
              options_connection_name := Some "conn" |}
           Fixtures.start eq_refl (fun _ _ _ => eq_refl)).
Defined.



Lemma resume_dialog_consumes_the_turn_witness :
  (resume_dialog
     (Fixtures.collaborators Fixtures.ok_empty 200 Fixtures.token_ok)
     Fixtures.create_reply Fixtures.options (Fixtures.context_of Fixtures.hello true)
     Fixtures.start).1
  = Ok end_of_turn.
Proof.
  destruct (resume_dialog_consumes_the_turn
              (Fixtures.collaborators Fixtures.ok_empty 200 Fixtures.token_ok)
              Fixtures.create_reply Fixtures.options (Fixtures.context_of Fixtures.hello true)
              Fixtures.start)
    as (d & _ & _ & _ & _ & Hcoop).
  apply Hcoop. apply fixtures_cooperative; simpl; lia.
Defined.
